(** * TeleCIMENTO evaluation backend (src/app.py): model and verification

    The Flask handlers of [src/app.py] are embedded as functions over an
    explicit store (the three SQLite tables and the logger output) and an
    explicit environment (clock, availability of the database file).

    Layout
    - [PyStr], [PyJson]: the Python values the handlers manipulate and the
      [json] module ([json.dumps], [json.loads]) they call;
    - [PyDatetime]: [datetime.fromisoformat], [.date()], [.isoformat()];
    - [Sqlite]: the three tables of [DatabaseManager.init_database] and the
      statements the handlers execute;
    - [App]: the handlers themselves;
    - the theorems, one section per property of the specification. *)

From Stdlib Require Import ZArith NArith Ascii String List Lia Bool.
From Stdlib Require Import DecimalString DecimalN DecimalPos DecimalFacts.
From stdpp Require Import base option list gmap strings sorting.

Local Open Scope string_scope.
Local Open Scope Z_scope.

(** ** Python [str]

    A Python string is modelled by a Rocq [string]: a sequence of code
    points below 256.  Characters are compared by code point, which is also
    the order SQLite's BINARY collation induces on the UTF-8 encoding. *)
Module PyStr.

Definition dquote : ascii := "034"%char.
Definition backslash : ascii := "092"%char.

Definition code (c : ascii) : N := N_of_ascii c.

(** [s.replace(old, new)] for a one-character [old]: every occurrence is
    replaced. *)
Fixpoint replace_char (old : ascii) (new : string) (s : string) : string :=
  match s with
  | EmptyString => EmptyString
  | String c r =>
      if Ascii.eqb c old then new +:+ replace_char old new r
      else String c (replace_char old new r)
  end.

(** [sub in s] on strings: substring test. *)
Fixpoint contains_at (sub s : string) : bool :=
  match s with
  | EmptyString => String.prefix sub EmptyString
  | String _ r => String.prefix sub s || contains_at sub r
  end.

(** [s[len(p):]] when [s.startswith(p)]. *)
Fixpoint strip_prefix (p s : string) : option string :=
  match p, s with
  | EmptyString, _ => Some s
  | String a p', String b s' => if Ascii.eqb a b then strip_prefix p' s' else None
  | String _ _, EmptyString => None
  end.

(** Truthiness of a string: non-empty. *)
Definition truthy (s : string) : bool :=
  match s with EmptyString => false | String _ _ => true end.

(** Decimal text of a natural number, as [int.__repr__] prints it:
    no sign, no leading zero except for zero itself. *)
Definition of_N (n : N) : string := NilEmpty.string_of_uint (N.to_uint n).

Definition of_Z (z : Z) : string :=
  match z with
  | Z0 => "0"
  | Zpos p => of_N (Npos p)
  | Zneg p => String "-" (of_N (Npos p))
  end.

End PyStr.

(** ** Python values exchanged as JSON, and the [json] module

    [request.get_json()] yields [None], [bool], [int], [str], [list] or
    [dict] with string keys.  A [dict] keeps its insertion order, so it is
    an association list; a Python dict has no repeated key, which is the
    well-formedness condition [wf].  Floating-point numbers are left out of
    the model: [loads] gives up on a literal with a fraction or exponent. *)
Module PyJson.
Import PyStr.

Unset Elimination Schemes.
Inductive json : Type :=
| JNull
| JBool (b : bool)
| JInt (n : Z)
| JStr (s : string)
| JArr (items : list json)
| JObj (members : list (string * json)).
Set Elimination Schemes.

Section Induction.
Variable P : json → Prop.
Hypothesis Hnull : P JNull.
Hypothesis Hbool : ∀ b, P (JBool b).
Hypothesis Hint : ∀ n, P (JInt n).
Hypothesis Hstr : ∀ s, P (JStr s).
Hypothesis Harr : ∀ l, Forall P l → P (JArr l).
Hypothesis Hobj : ∀ m, Forall (λ kv, P kv.2) m → P (JObj m).

Fixpoint json_ind (v : json) : P v :=
  match v with
  | JNull => Hnull
  | JBool b => Hbool b
  | JInt n => Hint n
  | JStr s => Hstr s
  | JArr l =>
      Harr l ((fix go l : Forall P l :=
                 match l with
                 | [] => Forall_nil_2 P
                 | x :: r => Forall_cons_2 P x r (json_ind x) (go r)
                 end) l)
  | JObj m =>
      Hobj m ((fix go m : Forall (λ kv, P kv.2) m :=
                 match m with
                 | [] => Forall_nil_2 _
                 | kv :: r => Forall_cons_2 _ kv r (json_ind kv.2) (go r)
                 end) m)
  end.
End Induction.

(** Keys of every dict are pairwise distinct, at every depth. *)
Fixpoint wf (v : json) : bool :=
  match v with
  | JArr l => forallb wf l
  | JObj m =>
      bool_decide (NoDup (m.*1))
      && (fix go (m : list (string * json)) : bool :=
            match m with
            | [] => true
            | kv :: r => wf kv.2 && go r
            end) m
  | _ => true
  end.

(** *** [json.dumps] with the default options
    ([ensure_ascii=True], separators [", "] and [": "]). *)

Definition hex_digit (d : N) : ascii :=
  if (d <? 10)%N then ascii_of_N (48 + d) else ascii_of_N (87 + d).

(** [ESCAPE_DCT] and the [\uXXXX] fallback of
    [py_encode_basestring_ascii]: everything outside [' '..'~'] is
    escaped, as are the quote and the backslash. *)
Definition escape_char (c : ascii) : string :=
  if Ascii.eqb c dquote then String backslash (String dquote "")
  else if Ascii.eqb c backslash then String backslash (String backslash "")
  else if Ascii.eqb c "010" then String backslash "n"
  else if Ascii.eqb c "013" then String backslash "r"
  else if Ascii.eqb c "009" then String backslash "t"
  else if Ascii.eqb c "008" then String backslash "b"
  else if Ascii.eqb c "012" then String backslash "f"
  else if ((32 <=? code c) && (code c <=? 126))%N then String c ""
  else String backslash
         (String "u" (String "0" (String "0"
            (String (hex_digit (code c / 16))
               (String (hex_digit (code c mod 16)) ""))))).

Fixpoint escape (s : string) : string :=
  match s with
  | EmptyString => EmptyString
  | String c r => escape_char c +:+ escape r
  end.

Definition encode_basestring_ascii (s : string) : string :=
  String dquote (escape s +:+ String dquote "").

Definition encode_member (dumps : json → string) (kv : string * json) : string :=
  encode_basestring_ascii kv.1 +:+ ": " +:+ dumps kv.2.

Fixpoint dumps (v : json) : string :=
  match v with
  | JNull => "null"
  | JBool true => "true"
  | JBool false => "false"
  | JInt n => of_Z n
  | JStr s => encode_basestring_ascii s
  | JArr l => "[" +:+ String.concat ", " (map dumps l) +:+ "]"
  | JObj m => "{" +:+ String.concat ", " (map (encode_member dumps) m) +:+ "}"
  end.

(** *** [json.loads] (module [json.decoder] / [json.scanner]) *)

Definition is_ws (c : ascii) : bool :=
  Ascii.eqb c " " || Ascii.eqb c "009" || Ascii.eqb c "010" || Ascii.eqb c "013".

(** [WHITESPACE.match(s, end).end()] *)
Fixpoint skip_ws (s : string) : string :=
  match s with
  | String c r => if is_ws c then skip_ws r else s
  | EmptyString => EmptyString
  end.

Definition hex_value (c : ascii) : option N :=
  let n := code c in
  if ((48 <=? n) && (n <=? 57))%N then Some (n - 48)%N
  else if ((97 <=? n) && (n <=? 102))%N then Some (n - 87)%N
  else if ((65 <=? n) && (n <=? 70))%N then Some (n - 55)%N
  else None.

(** [_decode_uXXXX]: four hexadecimal digits. *)
Definition decode_uXXXX (h1 h2 h3 h4 : ascii) : option N :=
  a ← hex_value h1; b ← hex_value h2; c ← hex_value h3; d ← hex_value h4;
  Some (((a * 16 + b) * 16 + c) * 16 + d)%N.

(** The [BACKSLASH] table. *)
Definition unescape (e : ascii) : option ascii :=
  if Ascii.eqb e dquote then Some dquote
  else if Ascii.eqb e backslash then Some backslash
  else if Ascii.eqb e "/" then Some "/"%char
  else if Ascii.eqb e "b" then Some "008"%char
  else if Ascii.eqb e "f" then Some "012"%char
  else if Ascii.eqb e "n" then Some "010"%char
  else if Ascii.eqb e "r" then Some "013"%char
  else if Ascii.eqb e "t" then Some "009"%char
  else None.

Definition push (c : ascii) (r : option (string * string)) : option (string * string) :=
  '(body, rest) ← r; Some (String c body, rest).

(** [scanstring(s, end, strict=True)]: [s] starts just after the opening
    quote; the result is the decoded string and what follows the closing
    quote.  An escape that denotes a code point above 255 (in particular a
    surrogate pair) is outside the model. *)
Fixpoint scanstring (s : string) : option (string * string) :=
  match s with
  | EmptyString => None
  | String c r =>
      if Ascii.eqb c dquote then Some (EmptyString, r)
      else if Ascii.eqb c backslash then
        match r with
        | EmptyString => None
        | String e r1 =>
            if Ascii.eqb e "u" then
              match r1 with
              | String h1 (String h2 (String h3 (String h4 r2))) =>
                  match decode_uXXXX h1 h2 h3 h4 with
                  | Some n =>
                      if (n <? 256)%N then push (ascii_of_N n) (scanstring r2)
                      else None
                  | None => None
                  end
              | _ => None
              end
            else
              match unescape e with
              | Some ch => push ch (scanstring r1)
              | None => None
              end
        end
      else if (code c <? 32)%N then None
      else push c (scanstring r)
  end.

Definition digit_of (c : ascii) : option (Decimal.uint → Decimal.uint) :=
  match c with
  | "0"%char => Some Decimal.D0 | "1"%char => Some Decimal.D1
  | "2"%char => Some Decimal.D2 | "3"%char => Some Decimal.D3
  | "4"%char => Some Decimal.D4 | "5"%char => Some Decimal.D5
  | "6"%char => Some Decimal.D6 | "7"%char => Some Decimal.D7
  | "8"%char => Some Decimal.D8 | "9"%char => Some Decimal.D9
  | _ => None
  end.

(** The longest run of decimal digits at the head of [s] ([\d*]). *)
Fixpoint scan_digits (s : string) : Decimal.uint * string :=
  match s with
  | EmptyString => (Decimal.Nil, s)
  | String c r =>
      match digit_of c with
      | Some d => let '(u, rest) := scan_digits r in (d u, rest)
      | None => (Decimal.Nil, s)
      end
  end.

Definition starts_float_tail (s : string) : bool :=
  match s with
  | String c _ => Ascii.eqb c "." || Ascii.eqb c "e" || Ascii.eqb c "E"
  | EmptyString => false
  end.

(** The integer part of [NUMBER_RE]: [0|[1-9]\d*]. *)
Definition scan_natural (s : string) : option (N * string) :=
  match s with
  | String c r =>
      if Ascii.eqb c "0" then Some (0%N, r)
      else
        match digit_of c with
        | Some _ => let '(u, rest) := scan_digits s in Some (N.of_uint u, rest)
        | None => None
        end
  | EmptyString => None
  end.

(** [NUMBER_RE] at the head of [s].  A literal continued by a fraction or
    an exponent denotes a float, which the model does not represent; a
    lone ['.'] or ['e'] after the integer part is refused by every caller
    of the scanner, so failing here loses nothing. *)
Definition scan_number (s : string) : option (json * string) :=
  match strip_prefix "-" s with
  | Some r =>
      '(n, rest) ← scan_natural r;
      if starts_float_tail rest then None else Some (JInt (- Z.of_N n), rest)
  | None =>
      '(n, rest) ← scan_natural s;
      if starts_float_tail rest then None else Some (JInt (Z.of_N n), rest)
  end.

(** [dict(pairs)]: a repeated key keeps its first position and takes the
    last value. *)
Fixpoint dict_set (d : list (string * json)) (k : string) (v : json)
  : list (string * json) :=
  match d with
  | [] => [(k, v)]
  | (k', v') :: r =>
      if String.eqb k' k then (k', v) :: r else (k', v') :: dict_set r k v
  end.

Definition dict_of_pairs (pairs : list (string * json)) : list (string * json) :=
  foldl (λ d kv, dict_set d kv.1 kv.2) [] pairs.

(** [scan_once], [JSONArray] and [JSONObject].  The three recurse through
    one another on ever shorter suffixes of the text; [fuel] bounds the
    number of nested calls. *)
Fixpoint scan_once (fuel : nat) (s : string) : option (json * string) :=
  match fuel with
  | O => None
  | S fuel =>
      match s with
      | EmptyString => None
      | String c r =>
          if Ascii.eqb c dquote then
            '(str, rest) ← scanstring r; Some (JStr str, rest)
          else if Ascii.eqb c "{" then
            let r := skip_ws r in
            match r with
            | String "}" rest => Some (JObj [], rest)
            | String c1 r1 =>
                if Ascii.eqb c1 dquote then
                  '(pairs, rest) ← scan_members fuel r1 [];
                  Some (JObj (dict_of_pairs pairs), rest)
                else None
            | EmptyString => None
            end
          else if Ascii.eqb c "[" then
            let r := skip_ws r in
            match strip_prefix "]" r with
            | Some rest => Some (JArr [], rest)
            | None => '(items, rest) ← scan_items fuel r []; Some (JArr items, rest)
            end
          else
            match strip_prefix "null" s, strip_prefix "true" s,
                  strip_prefix "false" s with
            | Some rest, _, _ => Some (JNull, rest)
            | _, Some rest, _ => Some (JBool true, rest)
            | _, _, Some rest => Some (JBool false, rest)
            | _, _, _ => scan_number s
            end
      end
  end
with scan_items (fuel : nat) (s : string) (acc : list json)
  : option (list json * string) :=
  match fuel with
  | O => None
  | S fuel =>
      '(v, rest) ← scan_once fuel s;
      match skip_ws rest with
      | String "]" rest => Some (rev (v :: acc), rest)
      | String "," rest => scan_items fuel (skip_ws rest) (v :: acc)
      | _ => None
      end
  end
with scan_members (fuel : nat) (s : string) (acc : list (string * json))
  : option (list (string * json) * string) :=
  match fuel with
  | O => None
  | S fuel =>
      '(key, rest) ← scanstring s;
      match skip_ws rest with
      | String ":" rest =>
          '(v, rest) ← scan_once fuel (skip_ws rest);
          match skip_ws rest with
          | String "}" rest => Some (rev ((key, v) :: acc), rest)
          | String "," rest =>
              match skip_ws rest with
              | String c r =>
                  if Ascii.eqb c dquote then scan_members fuel r ((key, v) :: acc)
                  else None
              | EmptyString => None
              end
          | _ => None
          end
      | _ => None
      end
  end.

(** [JSONDecoder.decode]: leading whitespace, one value, trailing
    whitespace, end of text.  No call of the scanner is nested deeper than
    the text is long. *)
Definition loads (s : string) : option json :=
  '(v, rest) ← scan_once (S (String.length s)) (skip_ws s);
  match skip_ws rest with
  | EmptyString => Some v
  | String _ _ => None
  end.

End PyJson.

(** ** Python exceptions

    The handlers catch [Exception] wholesale; only the class of the
    exception is kept. *)
Module Py.

Inductive exn : Type :=
| TypeError
| KeyError
| AttributeError
| ValueError
| JSONDecodeError
| OverflowError
| InterfaceError             (* sqlite3: a parameter of unsupported type *)
| IntegrityError (constraint : string)
| OperationalError.          (* sqlite3: the database cannot be used *)

Inductive result (A : Type) : Type :=
| Return (a : A)
| Raise (e : exn).
Arguments Return {A} a.
Arguments Raise {A} e.

Definition bind {A B} (m : result A) (k : A → result B) : result B :=
  match m with
  | Return a => k a
  | Raise e => Raise e
  end.

#[global] Instance result_ret : MRet result := @Return.
#[global] Instance result_bind : MBind result := λ A B k m, bind m k.

(** A library call that fails raises the given exception. *)
Definition or_raise {A} (e : exn) (o : option A) : result A :=
  match o with
  | Some a => Return a
  | None => Raise e
  end.

End Py.

(** ** [datetime]

    A [datetime] carries its wall-clock fields and, when aware, its offset
    from UTC (in microseconds, east positive). *)
Module PyDatetime.

Record date : Type := Date { year : Z; month : Z; day : Z }.

Record datetime : Type := Datetime {
  date_part : date;
  hour : Z;
  minute : Z;
  second : Z;
  microsecond : Z;
  utcoffset : option Z
}.

(** [dt.date()]: the wall-clock date, whatever the offset. *)
Definition date_of (dt : datetime) : date := date_part dt.

Definition date_eqb (a b : date) : bool :=
  (year a =? year b) && (month a =? month b) && (day a =? day b).

Definition is_leap (y : Z) : bool :=
  (y mod 4 =? 0) && (negb (y mod 100 =? 0) || (y mod 400 =? 0)).

Definition days_in_month (y m : Z) : Z :=
  if m =? 2 then (if is_leap y then 29 else 28)
  else if (m =? 4) || (m =? 6) || (m =? 9) || (m =? 11) then 30
  else 31.

Definition digit_value (c : ascii) : option Z :=
  let n := Z.of_N (N_of_ascii c) in
  if (48 <=? n) && (n <=? 57) then Some (n - 48) else None.

(** Exactly [n] decimal digits. *)
Fixpoint parse_digits (n : nat) (acc : Z) (s : string) : option (Z * string) :=
  match n with
  | O => Some (acc, s)
  | S n' =>
      match s with
      | String c r => d ← digit_value c; parse_digits n' (acc * 10 + d) r
      | EmptyString => None
      end
  end.

Definition expect (c : ascii) (s : string) : option string :=
  match s with
  | String c' r => if Ascii.eqb c c' then Some r else None
  | EmptyString => None
  end.

(** [YYYY-MM-DD] *)
Definition parse_isoformat_date (s : string) : option (date * string) :=
  '(y, s) ← parse_digits 4 0 s;
  s ← expect "-" s;
  '(m, s) ← parse_digits 2 0 s;
  s ← expect "-" s;
  '(d, s) ← parse_digits 2 0 s;
  Some (Date y m d, s).

(** [.fff] or [.ffffff], in microseconds; [millis] tells whether the
    three-digit form is allowed. *)
Definition parse_fraction (millis : bool) (s : string) : option (Z * string) :=
  match parse_digits 6 0 s with
  | Some r => Some r
  | None =>
      if millis then '(f, s) ← parse_digits 3 0 s; Some (f * 1000, s)
      else None
  end.

Definition starts_with (c : ascii) (s : string) : bool :=
  match s with
  | String c' _ => Ascii.eqb c c'
  | EmptyString => false
  end.

(** [HH[:MM[:SS[.fff[fff]]]]]; the result is hour, minute, second,
    microsecond.  With [tz] the component is an offset: minutes are
    required and a fraction has six digits. *)
Definition parse_hh_mm_ss_ff (tz : bool) (s : string)
  : option (Z * Z * Z * Z * string) :=
  '(h, s) ← parse_digits 2 0 s;
  if negb (starts_with ":" s) then
    (if tz then None else Some (h, 0, 0, 0, s))
  else
    s ← expect ":" s;
    '(m, s) ← parse_digits 2 0 s;
    if negb (starts_with ":" s) then Some (h, m, 0, 0, s)
    else
      s ← expect ":" s;
      '(sec, s) ← parse_digits 2 0 s;
      if negb (starts_with "." s) then Some (h, m, sec, 0, s)
      else
        s ← expect "." s;
        '(us, s) ← parse_fraction (negb tz) s;
        Some (h, m, sec, us, s).

Definition day_microseconds : Z := 86400 * 1000000.

(** The time part [HH[:MM[:SS[.fff[fff]]]][+HH:MM[:SS[.ffffff]]]]: the
    fields of the time and the offset, if one is written. *)
Definition parse_isoformat_time (s : string)
  : option (Z * Z * Z * Z * option Z) :=
  '(h, m, sec, us, s) ← parse_hh_mm_ss_ff false s;
  match s with
  | EmptyString => Some (h, m, sec, us, None)
  | String c r =>
      if Ascii.eqb c "+" || Ascii.eqb c "-" then
        '(th, tm, ts, tus, rest) ← parse_hh_mm_ss_ff true r;
        match rest with
        | EmptyString =>
            let magnitude := ((th * 3600 + tm * 60 + ts) * 1000000 + tus) in
            Some (h, m, sec, us,
                  Some (if Ascii.eqb c "-" then - magnitude else magnitude))
        | String _ _ => None
        end
      else None
  end.

(** The range checks of the [datetime] constructor. *)
Definition valid (dt : datetime) : bool :=
  let d := date_part dt in
  (1 <=? year d) && (year d <=? 9999)
  && (1 <=? month d) && (month d <=? 12)
  && (1 <=? day d) && (day d <=? days_in_month (year d) (month d))
  && (hour dt <? 24) && (minute dt <? 60) && (second dt <? 60)
  && match utcoffset dt with
     | Some off => (- day_microseconds <? off) && (off <? day_microseconds)
     | None => true
     end.

(** [datetime.fromisoformat]: the inverse of [datetime.isoformat()], as
    documented for Python 3.7 to 3.10 (later versions accept more of
    ISO 8601).  The date, any one separator character, then the time. *)
Definition fromisoformat (s : string) : option datetime :=
  '(d, s) ← parse_isoformat_date s;
  dt ← match s with
       | EmptyString => Some (Datetime d 0 0 0 0 None)
       | String _sep t =>
           '(h, m, sec, us, off) ← parse_isoformat_time t;
           Some (Datetime d h m sec us off)
       end;
  if valid dt then Some dt else None.

Definition pad (width : nat) (n : Z) : string :=
  let digits := PyStr.of_Z n in
  String.concat "" (replicate (width - String.length digits) "0") +:+ digits.

(** [date.isoformat()] *)
Definition date_isoformat (d : date) : string :=
  pad 4 (year d) +:+ "-" +:+ pad 2 (month d) +:+ "-" +:+ pad 2 (day d).

Definition offset_isoformat (off : Z) : string :=
  let sign := if off <? 0 then "-" else "+" in
  let a := Z.abs off in
  let us := a mod 1000000 in
  let s := a / 1000000 in
  sign +:+ pad 2 (s / 3600) +:+ ":" +:+ pad 2 (s / 60 mod 60)
  +:+ (if (s mod 60 =? 0) && (us =? 0) then ""
       else ":" +:+ pad 2 (s mod 60)
            +:+ (if us =? 0 then "" else "." +:+ pad 6 us)).

(** [datetime.isoformat()] *)
Definition isoformat (dt : datetime) : string :=
  date_isoformat (date_part dt) +:+ "T"
  +:+ pad 2 (hour dt) +:+ ":" +:+ pad 2 (minute dt) +:+ ":" +:+ pad 2 (second dt)
  +:+ (if microsecond dt =? 0 then "" else "." +:+ pad 6 (microsecond dt))
  +:+ match utcoffset dt with
      | Some off => offset_isoformat off
      | None => ""
      end.

End PyDatetime.

(** ** The SQLite store

    The tables of [DatabaseManager.init_database].  [avaliacoes] is a rowid
    table scanned in insertion order; [controle_votacao] is keyed by its
    primary key.  Every column has TEXT affinity. *)
Module Sqlite.
Import Py PyJson.

Inductive value : Type :=
| VNull
| VInteger (n : Z)
| VText (s : string).

(** How the [sqlite3] module binds a Python value to a [?]. *)
Definition bind_param (v : json) : result value :=
  match v with
  | JNull => Return VNull
  | JBool b => Return (VInteger (if b then 1 else 0))
  | JInt n =>
      if (- 2 ^ 63 <=? n) && (n <? 2 ^ 63) then Return (VInteger n)
      else Raise OverflowError
  | JStr s => Return (VText s)
  | JArr _ | JObj _ => Raise InterfaceError
  end.

(** TEXT affinity: an integer is stored (and compared) as its decimal
    text; NULL stays NULL ([None]). *)
Definition text_affinity (v : value) : option string :=
  match v with
  | VNull => None
  | VInteger n => Some (PyStr.of_Z n)
  | VText s => Some s
  end.

(** Row of [avaliacoes].  [id] is a TEXT PRIMARY KEY of a rowid table,
    which SQLite lets be NULL. *)
Record avaliacao : Type := Avaliacao {
  av_id : option string;
  av_dispositivo_id : string;
  av_timestamp : string;
  av_avaliacao_geral : string;
  av_setores : option string;
  av_feedback : option string;
  av_created_at : string
}.

(** Row of [controle_votacao], without its key. *)
Record controle : Type := Controle {
  cv_ultimo_voto : string;
  cv_created_at : string;
  cv_updated_at : option string
}.

(** An f-string before rendering: literal text and interpolated values. *)
Inductive piece : Type :=
| Lit (s : string)
| Val (v : json)
| Exc (e : exn).

(** Row of [logs_sistema]. *)
Record log_sistema : Type := LogSistema {
  ls_id : Z;
  ls_acao : string;
  ls_detalhes : list piece;
  ls_timestamp : string
}.

Record store : Type := Store {
  avaliacoes : list avaliacao;
  controle_votacao : gmap string controle;
  logs_sistema : list log_sistema
}.

Definition empty : store := Store [] ∅ [].

Definition not_null (column : string) (v : option string) : result string :=
  or_raise (IntegrityError ("NOT NULL constraint failed: " +:+ column)) v.

Definition id_taken (id : option string) (rows : list avaliacao) : bool :=
  match id with
  | Some i => existsb (λ r, bool_decide (av_id r = Some i)) rows
  | None => false
  end.

(** [INSERT INTO avaliacoes (id, dispositivo_id, timestamp,
    avaliacao_geral, setores, feedback) VALUES (?, ?, ?, ?, ?, ?)];
    [created_at] takes its default, CURRENT_TIMESTAMP. *)
Definition insert_avaliacao (current_timestamp : string)
    (id dispositivo_id timestamp avaliacao_geral : json)
    (setores : string) (feedback : json) (db : store) : result store :=
  id ← bind_param id;
  dispositivo_id ← bind_param dispositivo_id;
  timestamp ← bind_param timestamp;
  avaliacao_geral ← bind_param avaliacao_geral;
  feedback ← bind_param feedback;
  dispositivo_id ← not_null "avaliacoes.dispositivo_id" (text_affinity dispositivo_id);
  timestamp ← not_null "avaliacoes.timestamp" (text_affinity timestamp);
  avaliacao_geral ← not_null "avaliacoes.avaliacao_geral" (text_affinity avaliacao_geral);
  let id := text_affinity id in
  if id_taken id (avaliacoes db)
  then Raise (IntegrityError "UNIQUE constraint failed: avaliacoes.id")
  else
    let row := Avaliacao id dispositivo_id timestamp avaliacao_geral
                 (Some setores) (text_affinity feedback) current_timestamp in
    Return (Store (avaliacoes db ++ [row]) (controle_votacao db) (logs_sistema db)).

(** [INSERT OR REPLACE INTO controle_votacao (dispositivo_id, ultimo_voto,
    updated_at) VALUES (?, ?, ?)]: the row of that device, if any, is
    replaced as a whole.  The two NULL cases cannot arise where the
    handler executes this statement: the same values have just passed the
    NOT NULL columns of [avaliacoes]. *)
Definition replace_controle (current_timestamp : string)
    (dispositivo_id ultimo_voto : json) (updated_at : string) (db : store)
  : result store :=
  dispositivo_id ← bind_param dispositivo_id;
  ultimo_voto ← bind_param ultimo_voto;
  ultimo_voto ← not_null "controle_votacao.ultimo_voto" (text_affinity ultimo_voto);
  dispositivo_id ← not_null "controle_votacao.dispositivo_id" (text_affinity dispositivo_id);
  let row := Controle ultimo_voto current_timestamp (Some updated_at) in
  Return (Store (avaliacoes db)
                (<[dispositivo_id := row]> (controle_votacao db))
                (logs_sistema db)).

(** [SELECT ultimo_voto FROM controle_votacao WHERE dispositivo_id = ?]
    followed by [fetchone()].  The parameter is compared as text; NULL
    equals nothing. *)
Definition select_ultimo_voto (dispositivo_id : json) (db : store)
  : result (option string) :=
  key ← bind_param dispositivo_id;
  match text_affinity key with
  | Some k => Return (cv_ultimo_voto <$> controle_votacao db !! k)
  | None => Return None
  end.

(** [DELETE FROM controle_votacao] *)
Definition delete_controle (db : store) : store :=
  Store (avaliacoes db) ∅ (logs_sistema db).

(** [INSERT INTO logs_sistema (acao, detalhes, timestamp) VALUES (?, ?, ?)];
    the key is the next integer of the AUTOINCREMENT sequence (no row of
    this table is ever deleted). *)
Definition insert_log (acao : string) (detalhes : list piece)
    (timestamp : string) (db : store) : store :=
  Store (avaliacoes db) (controle_votacao db)
        (logs_sistema db
           ++ [LogSistema (Z.of_nat (length (logs_sistema db)) + 1)
                          acao detalhes timestamp]).

(** [ORDER BY timestamp DESC]: text compared left to right by code point. *)
Definition timestamp_desc (a b : avaliacao) : Prop :=
  String.leb (av_timestamp b) (av_timestamp a) = true.

#[global] Instance timestamp_desc_dec a b : Decision (timestamp_desc a b).
Proof. unfold timestamp_desc. apply _. Defined.

(** [SELECT id, dispositivo_id, timestamp, avaliacao_geral, setores,
    feedback FROM avaliacoes ORDER BY timestamp DESC].  SQL leaves the
    order of rows with equal timestamps open; the model merges sorted
    runs. *)
Definition select_avaliacoes_desc (db : store) : list avaliacao :=
  merge_sort timestamp_desc (avaliacoes db).

(** [SELECT avaliacao_geral, COUNT( * ) FROM avaliacoes GROUP BY
    avaliacao_geral]: one row per distinct value. *)
Definition count_of (k : string) (keys : list string) : nat :=
  length (filter (λ x, x = k) keys).

Definition select_group_count (db : store) : list (string * nat) :=
  let keys := av_avaliacao_geral <$> avaliacoes db in
  (λ k, (k, count_of k keys)) <$> remove_dups keys.

(** [SELECT COUNT( * ) FROM avaliacoes WHERE feedback IS NOT NULL AND
    feedback != ""]; the second literal is the empty string. *)
Definition has_feedback (r : avaliacao) : bool :=
  match av_feedback r with
  | Some f => negb (String.eqb f "")
  | None => false
  end.

Definition select_count_feedback (db : store) : nat :=
  length (filter (λ r, has_feedback r = true) (avaliacoes db)).

End Sqlite.


(** ** The handlers of [src/app.py] *)
Module App.
Import Py PyStr PyJson PyDatetime Sqlite.

(** What a request sees of the outside: the value of [get_brazil_time()]
    (an aware datetime in [TIMEZONE], America/Sao_Paulo; one reading per
    request), SQLite's CURRENT_TIMESTAMP, and whether [sqlite3] can use
    [DATABASE_FILE]. *)
Record env : Type := Env {
  get_brazil_time : datetime;
  current_timestamp : string;
  database_ok : bool
}.

Inductive level : Type := INFO | ERROR.

(** One call of [logger.info] or [logger.error]. *)
Record log_record : Type := LogRecord {
  lr_level : level;
  lr_message : list piece
}.

Record world : Type := World {
  db : store;
  logger : list log_record
}.

(** One element of the list returned by [get_evaluations]. *)
Record evaluation : Type := Evaluation {
  ev_id : option string;
  ev_dispositivoId : string;
  ev_timestamp : string;
  ev_avaliacaoGeral : string;
  ev_setores : json;
  ev_feedback : string
}.

Record statistics : Type := StatisticsOf {
  totalAvaliacoes : nat;
  avaliacoesHoje : nat;
  distribuicao : gmap string nat;
  totalFeedbacks : nat;
  st_timestamp : string
}.

(** The argument of each [jsonify]; [success] is true for the first five. *)
Inductive body : Type :=
| Evaluations (evaluations : list evaluation) (total : nat)
| Saved (message : string) (id : json)
| CheckVote (dispositivoId : string) (hasVotedToday : bool) (timestamp : string)
| Reset (message : string) (timestamp : string)
| Statistics (stats : statistics)
| Failure (error : string)
| Crashed (e : exn).           (* ['error': str(e)] *)

Record response : Type := Response {
  status : Z;
  payload : body
}.

(** *** Handler code: state (the world) and exceptions *)

Definition M (A : Type) : Type := world → result A * world.

#[global] Instance M_ret : MRet M := λ A a w, (Return a, w).

#[global] Instance M_bind : MBind M := λ A B k m w,
  match m w with
  | (Return a, w') => k a w'
  | (Raise e, w') => (Raise e, w')
  end.

Definition lift {A} (r : result A) : M A := λ w, (r, w).

(** [try: body / except Exception as e: handler e] *)
Definition try_except {A} (body : M A) (handler : exn → M A) : M A := λ w,
  match body w with
  | (Return a, w') => (Return a, w')
  | (Raise e, w') => handler e w'
  end.

Definition log (l : level) (message : list piece) : M unit := λ w,
  (Return (), World (db w) (logger w ++ [LogRecord l message])).

(** [with db_manager.get_connection() as conn:] around statements that only
    read. *)
Definition query {A} (e : env) (q : store → result A) : M A := λ w,
  if database_ok e then (q (db w), w) else (Raise OperationalError, w).

(** [with db_manager.get_connection() as conn:] around statements that
    write, ended by [conn.commit()].  An exception before the commit leaves
    the connection through [conn.close()], which discards the changes. *)
Definition transaction (e : env) (t : store → result store) : M unit := λ w,
  if database_ok e then
    match t (db w) with
    | Return db' => (Return (), World db' (logger w))
    | Raise ex => (Raise ex, w)
    end
  else (Raise OperationalError, w).

(** *** Python operations on the request payload *)

Fixpoint dict_get (m : list (string * json)) (k : string) : option json :=
  match m with
  | [] => None
  | (k', v) :: r => if String.eqb k' k then Some v else dict_get r k
  end.

(** [key in data] *)
Definition py_contains (key : string) (data : json) : result bool :=
  match data with
  | JObj m => Return (bool_decide (is_Some (dict_get m key)))
  | JArr l => Return (existsb (λ v, match v with
                                    | JStr s => String.eqb s key
                                    | _ => false
                                    end) l)
  | JStr s => Return (contains_at key s)
  | JNull | JBool _ | JInt _ => Raise TypeError
  end.

(** [data[key]] *)
Definition py_getitem (data : json) (key : string) : result json :=
  match data with
  | JObj m => or_raise KeyError (dict_get m key)
  | _ => Raise TypeError
  end.

(** [data.get(key, default)] *)
Definition py_get (data : json) (key : string) (default : json) : result json :=
  match data with
  | JObj m => Return (from_option id default (dict_get m key))
  | _ => Raise AttributeError
  end.

(** *** [is_same_day], [log_action], [has_voted_today] *)

Definition is_same_day (date1 date2 : datetime) : bool :=
  date_eqb (date_of date1) (date_of date2).

Definition log_action (e : env) (acao : string) (detalhes : list piece) : M unit :=
  try_except
    (transaction e (λ db,
       Return (insert_log acao detalhes (isoformat (get_brazil_time e)) db)))
    (λ ex, log ERROR [Lit "Erro ao registrar log: "; Exc ex]).

Definition has_voted_today (e : env) (dispositivo_id : json) : M bool :=
  try_except
    (result ← query e (select_ultimo_voto dispositivo_id);
     match result with
     | None => mret false
     | Some ultimo_voto =>
         ultimo_voto ← lift (or_raise ValueError
                               (fromisoformat (replace_char "Z" "+00:00" ultimo_voto)));
         let hoje := get_brazil_time e in
         mret (is_same_day ultimo_voto hoje)
     end)
    (λ ex,
       log ERROR [Lit "Erro ao verificar voto do dia: "; Exc ex];;
       mret false).

(** *** The routes *)

(** The [except Exception as e:] clause shared by the routes: log, answer
    500 with [str(e)]. *)
Definition route (label : string) (handler : M response) (w : world)
  : response * world :=
  match handler w with
  | (Return r, w') => (r, w')
  | (Raise ex, w') =>
      (Response 500 (Crashed ex),
       World (db w') (logger w' ++ [LogRecord ERROR [Lit label; Exc ex]]))
  end.

Definition row_to_evaluation (row : avaliacao) : result evaluation :=
  setores ← match av_setores row with
            | Some s =>
                if truthy s then or_raise JSONDecodeError (loads s)
                else Return (JObj [])
            | None => Return (JObj [])
            end;
  Return (Evaluation (av_id row) (av_dispositivo_id row) (av_timestamp row)
            (av_avaliacao_geral row) setores
            (from_option id "" (av_feedback row))).

(** [GET /api/evaluations] *)
Definition get_evaluations (e : env) : world → response * world :=
  route "Erro ao obter avaliações: "
    (rows ← query e (λ db, Return (select_avaliacoes_desc db));
     evaluations ← lift (mapM row_to_evaluation rows);
     mret (Response 200 (Evaluations evaluations (length evaluations)))).

Definition required_fields : list string :=
  ["id"; "dispositivoId"; "timestamp"; "avaliacaoGeral"].

(** The validation loop: the first required field that is not [in data]. *)
Fixpoint first_missing (data : json) (fields : list string) : result (option string) :=
  match fields with
  | [] => Return None
  | field :: rest =>
      present ← py_contains field data;
      if (present : bool) then first_missing data rest else Return (Some field)
  end.

(** The two INSERTs of [submit_evaluation], committed together. *)
Definition save_evaluation (e : env) (data dispositivo_id : json) (d : store)
  : result store :=
  id ← py_getitem data "id";
  dispositivoId ← py_getitem data "dispositivoId";
  timestamp ← py_getitem data "timestamp";
  avaliacaoGeral ← py_getitem data "avaliacaoGeral";
  setores ← py_get data "setores" (JObj []);
  feedback ← py_get data "feedback" (JStr "");
  d ← insert_avaliacao (current_timestamp e) id dispositivoId timestamp
         avaliacaoGeral (dumps setores) feedback d;
  timestamp ← py_getitem data "timestamp";
  replace_controle (current_timestamp e) dispositivo_id timestamp
    (isoformat (get_brazil_time e)) d.

(** [POST /api/submit-evaluation]; [data] is [request.get_json()]. *)
Definition submit_evaluation (e : env) (data : json) : world → response * world :=
  route "Erro ao salvar avaliação: "
    (missing ← lift (first_missing data required_fields);
     match missing with
     | Some field =>
         mret (Response 400 (Failure ("Campo obrigatório ausente: " +:+ field)))
     | None =>
         dispositivo_id ← lift (py_getitem data "dispositivoId");
         voted ← has_voted_today e dispositivo_id;
         if (voted : bool) then
           mret (Response 409 (Failure "Dispositivo já votou hoje"))
         else
           transaction e (save_evaluation e data dispositivo_id);;
           avaliacaoGeral ← lift (py_getitem data "avaliacaoGeral");
           log_action e "AVALIACAO_ENVIADA"
             [Lit "Dispositivo: "; Val dispositivo_id;
              Lit ", Avaliação: "; Val avaliacaoGeral];;
           id ← lift (py_getitem data "id");
           log INFO [Lit "Avaliação salva: "; Val id; Lit " - "; Val avaliacaoGeral];;
           mret (Response 200 (Saved "Avaliação salva com sucesso" id))
     end).

(** [GET /api/check-vote/<dispositivo_id>] *)
Definition check_vote (e : env) (dispositivo_id : string) : world → response * world :=
  route "Erro ao verificar voto: "
    (has_voted ← has_voted_today e (JStr dispositivo_id);
     mret (Response 200 (CheckVote dispositivo_id has_voted (isoformat (get_brazil_time e))))).

(** [POST /api/reset-timer] *)
Definition reset_timer (e : env) : world → response * world :=
  route "Erro ao resetar timer: "
    (transaction e (λ d, Return (delete_controle d));;
     log_action e "TIMER_RESETADO" [Lit "Timer de votação resetado manualmente"];;
     log INFO [Lit "Timer de votação resetado"];;
     mret (Response 200 (Reset "Timer resetado com sucesso" (isoformat (get_brazil_time e))))).

Section Statistics.
(** SQLite's [DATE(text)]: the date of a time string, NULL ([None]) when
    SQLite cannot read it.  The function is SQLite's own and is left open. *)
Variable sqlite_date : string → option string.

(** [SELECT COUNT( * ) FROM avaliacoes WHERE DATE(timestamp) = ?] *)
Definition select_count_on (hoje : string) (d : store) : nat :=
  length (filter (λ r, sqlite_date (av_timestamp r) = Some hoje) (avaliacoes d)).

(** [GET /api/statistics] *)
Definition get_statistics (e : env) : world → response * world :=
  route "Erro ao obter estatísticas: "
    (query e (λ d,
       let total_avaliacoes := length (avaliacoes d) in
       let hoje := date_isoformat (date_of (get_brazil_time e)) in
       let avaliacoes_hoje := select_count_on hoje d in
       let distribuicao : gmap string nat := list_to_map (select_group_count d) in
       let total_feedbacks := select_count_feedback d in
       Return (Response 200 (Statistics
         (StatisticsOf total_avaliacoes avaliacoes_hoje distribuicao
            total_feedbacks (isoformat (get_brazil_time e))))))).
End Statistics.

(** The world before the first request: the three tables exist and are
    empty. *)
Definition initial : world := World Sqlite.empty [].

End App.


(** ** Vocabulary of the specification

    Notions the specification uses that are not functions of the program:
    the local calendar date of an instant, payload shapes, the stores the
    service can reach. *)
Module Spec.
Import Py PyStr PyJson PyDatetime Sqlite App.

(** *** Civil calendar *)

(** Days from 1970-01-01 to the given proleptic Gregorian date. *)
Definition days_from_civil (d : date) : Z :=
  let y := if month d <=? 2 then year d - 1 else year d in
  let era := y / 400 in
  let yoe := y - era * 400 in
  let mp := if month d <=? 2 then month d + 9 else month d - 3 in
  let doy := (153 * mp + 2) / 5 + day d - 1 in
  let doe := yoe * 365 + yoe / 4 - yoe / 100 + doy in
  era * 146097 + doe - 719468.

Definition civil_from_days (z : Z) : date :=
  let z := z + 719468 in
  let era := z / 146097 in
  let doe := z - era * 146097 in
  let yoe := (doe - doe / 1460 + doe / 36524 - doe / 146096) / 365 in
  let doy := doe - (365 * yoe + yoe / 4 - yoe / 100) in
  let mp := (5 * doy + 2) / 153 in
  let d := doy - (153 * mp + 2) / 5 + 1 in
  let m := if mp <? 10 then mp + 3 else mp - 9 in
  Date (if m <=? 2 then yoe + era * 400 + 1 else yoe + era * 400) m d.

(** The instant an aware datetime denotes, in microseconds since the epoch. *)
Definition instant (dt : datetime) : option Z :=
  off ← utcoffset dt;
  Some (((days_from_civil (date_part dt) * 86400
          + hour dt * 3600 + minute dt * 60 + second dt) * 1000000
         + microsecond dt) - off).

(** The calendar date of an instant in the zone whose offset is [zone]. *)
Definition local_date (zone : Z) (dt : datetime) : option date :=
  t ← instant dt;
  Some (civil_from_days ((t + zone) / day_microseconds)).

(** The rule of the specification: the stored [lastVoteAt] and the current
    time fall on the same calendar date of the local zone (the zone of
    [get_brazil_time()]). *)
Definition voted_on_local_day (now : datetime) (last_vote_at : string) : option bool :=
  zone ← utcoffset now;
  stored ← fromisoformat (replace_char "Z" "+00:00" last_vote_at);
  d ← local_date zone stored;
  today ← local_date zone now;
  Some (date_eqb d today).

(** *** Payloads *)

(** A JSON object that has every required field. *)
Definition complete (m : list (string * json)) : Prop :=
  ∀ field, field ∈ required_fields → is_Some (dict_get m field).

(** A complete object whose required fields are strings and whose feedback,
    if given, is a string. *)
Definition well_typed (m : list (string * json)) : Prop :=
  (∀ field, field ∈ required_fields → ∃ s, dict_get m field = Some (JStr s))
  ∧ (dict_get m "feedback" = None ∨ ∃ s, dict_get m "feedback" = Some (JStr s)).

(** The text SQLite stores for a bound Python value (NULL is [None]). *)
Definition stored_text (v : json) : option (option string) :=
  match bind_param v with
  | Return x => Some (text_affinity x)
  | Raise _ => None
  end.

(** The sectors and the feedback a payload submits, omitted fields taking
    the defaults of the data model. *)
Definition submitted_setores (m : list (string * json)) : json :=
  from_option id (JObj []) (dict_get m "setores").

Definition submitted_feedback (m : list (string * json)) : option string :=
  match dict_get m "feedback" with
  | None => Some ""
  | Some (JStr s) => Some s
  | Some _ => None
  end.

(** *** Stores *)

(** Every stored [setores] can be read back by the list operation. *)
Definition loadable (d : store) : bool :=
  forallb (λ r, match row_to_evaluation r with
                | Return _ => true
                | Raise _ => false
                end) (avaliacoes d).

(** The primary key of [avaliacoes]: no two rows share a non-NULL id. *)
Definition ids_unique (d : store) : Prop :=
  NoDup (omap av_id (avaliacoes d)).

Inductive request : Type :=
| GetEvaluations
| SubmitEvaluation (data : json)
| CheckVoteOf (dispositivo_id : string)
| ResetTimer
| GetStatistics (sqlite_date : string → option string).

(** A request body is a Python value: its dicts have no repeated key. *)
Definition request_ok (r : request) : Prop :=
  match r with
  | SubmitEvaluation data => wf data = true
  | _ => True
  end.

Definition serve (e : env) (r : request) (w : world) : response * world :=
  match r with
  | GetEvaluations => get_evaluations e w
  | SubmitEvaluation data => submit_evaluation e data w
  | CheckVoteOf d => check_vote e d w
  | ResetTimer => reset_timer e w
  | GetStatistics f => get_statistics f e w
  end.

(** The worlds the service reaches from the freshly initialised database. *)
Inductive reachable : world → Prop :=
| reachable_initial : reachable initial
| reachable_serve e r w :
    reachable w → request_ok r → reachable (serve e r w).2.

(** *** Order of the list operation *)

Definition newest_first (a b : evaluation) : Prop :=
  String.leb (ev_timestamp b) (ev_timestamp a) = true.

(** *** Predicates of the [json] round trip *)

Definition is_digit (c : ascii) : bool :=
  match digit_of c with Some _ => true | None => false end.

(** What may follow a number in a text that [dumps] wrote. *)
Definition ends_number (rest : string) : bool :=
  match rest with
  | EmptyString => true
  | String c _ => negb (is_digit c) && negb (starts_float_tail rest)
  end.

(** The first character of a dumped value: not whitespace, not a closing
    bracket. *)
Definition opens_value (s : string) : Prop :=
  ∃ c r, s = String c r ∧ is_ws c = false ∧ Ascii.eqb "]" c = false.

(** The scanner reads back a dumped value and stops right after it. *)
Definition round_trips (v : json) : Prop :=
  ∀ fuel rest,
    wf v = true → (String.length (dumps v) ≤ fuel)%nat → ends_number rest = true →
    scan_once fuel (dumps v +:+ rest) = Some (v, rest).

(** *** What [has_voted_today] decides

    The body of the [try] of [has_voted_today], as a function of the
    store. *)
Definition eligibility (e : env) (dispositivo_id : json) (d : store) : result bool :=
  if database_ok e then
    r ← select_ultimo_voto dispositivo_id d;
    match r with
    | None => Return false
    | Some ultimo_voto =>
        dt ← or_raise ValueError (fromisoformat (replace_char "Z" "+00:00" ultimo_voto));
        Return (is_same_day dt (get_brazil_time e))
    end
  else Raise OperationalError.

(** The world after one more call of the logger. *)
Definition logged (w : world) (l : level) (msg : list piece) : world :=
  World (db w) (logger w ++ [LogRecord l msg]).

(** *** Statistics *)

(** A feedback that is present and not empty. *)
Definition has_text (o : option string) : Prop := ∃ f, o = Some f ∧ f ≠ "".

#[global] Instance has_text_dec o : Decision (has_text o).
Proof.
  destruct o as [f|]; [|right; by intros (? & ? & ?)].
  destruct (decide (f = "")) as [->|Hne].
  - right. intros (? & [= <-] & ?). done.
  - left. by exists f.
Defined.

(** The [overallRating] of every stored evaluation, in table order. *)
Definition ratings (d : store) : list string := av_avaliacao_geral <$> avaliacoes d.

(** *** Sample requests *)

(** A terminal's submission, sent at 11:00 local time on 2024-03-05 with the
    timestamp a browser produces ([Date.toISOString()], UTC). *)
Definition kiosk (dev : string) (rating : string) (extra : list (string * json)) : json :=
  JObj ([("id", JStr ("id-" +:+ dev)); ("dispositivoId", JStr dev);
         ("timestamp", JStr "2024-03-05T14:00:00.000Z");
         ("avaliacaoGeral", JStr rating)] ++ extra).

(** [get_brazil_time()] at the given hour of the given day: America/Sao_Paulo
    is three hours behind UTC (no daylight saving time since 2019). *)
Definition sao_paulo (d : date) (h : Z) : datetime :=
  Datetime d h 0 0 0 (Some (-3 * 3600 * 1000000)).

Definition late_morning : env :=
  Env (sao_paulo (Date 2024 3 5) 11) "2024-03-05 14:00:00" true.

(** Three terminals vote that morning: [otimo], [otimo] with a comment,
    [regular]. *)
Definition three_evaluations : world :=
  (submit_evaluation late_morning (kiosk "c" "regular" [])
     (submit_evaluation late_morning (kiosk "b" "otimo" [("feedback", JStr "muito bom")])
        (submit_evaluation late_morning (kiosk "a" "otimo" []) initial).2).2).2.

(** A vote cast at 22:00 local time on 2024-01-01: the browser stamps it
    01:00 UTC of the next day. *)
Definition evening_vote : json :=
  JObj [("id", JStr "av-0001"); ("dispositivoId", JStr "totem-7");
        ("timestamp", JStr "2024-01-02T01:00:00.000Z");
        ("avaliacaoGeral", JStr "bom")].

Definition at_22h : env := Env (sao_paulo (Date 2024 1 1) 22) "2024-01-02 01:00:00" true.
Definition at_23h : env := Env (sao_paulo (Date 2024 1 1) 23) "2024-01-02 02:00:00" true.

End Spec.

(** ** Vocabulary of the further properties

    Closed forms of what the handlers compute and invariants of the
    tables, used by the properties proved beyond the specification. *)
Module Derived.
Import Py PyStr PyJson PyDatetime Sqlite App Spec.

(** What [has_voted_today] computes from a stored [ultimo_voto]: the date
    written in the timestamp, read by [fromisoformat] after ['Z'] is
    replaced, against the date of now; false when the text is not read. *)
Definition written_day_matches (now : datetime) (t : string) : bool :=
  match fromisoformat (replace_char "Z" "+00:00" t) with
  | Some dt => is_same_day dt now
  | None => false
  end.

(** The answer of [has_voted_today] as a function of the vote-control row
    of the device. *)
Definition answer (e : env) (row : option controle) : bool :=
  database_ok e
  && match row with
     | Some r => written_day_matches (get_brazil_time e) (cv_ultimo_voto r)
     | None => false
     end.

(** The vote-control row of a device carries the timestamp of the last
    stored evaluation of that device. *)
Definition backed (d : store) : Prop :=
  ∀ k row, controle_votacao d !! k = Some row →
    ∃ l1 av l2,
      avaliacoes d = (l1 ++ av :: l2)%list
      ∧ av_dispositivo_id av = k
      ∧ av_timestamp av = cv_ultimo_voto row
      ∧ Forall (λ x, av_dispositivo_id x ≠ k) l2.


(** The key [logs_sistema] gives its [n]-th row (from 0). *)
Definition nth_log_id (n : nat) : Z := Z.of_nat n + 1.

(** *** Sample data *)

(** The fields of [kiosk dev rating []] with an id of its own. *)
Definition ballot (i dev ts rating : string) : list (string * json) :=
  [("id", JStr i); ("dispositivoId", JStr dev);
   ("timestamp", JStr ts); ("avaliacaoGeral", JStr rating)].

(** The row [three_evaluations] holds for terminal [a]. *)
Definition row_a : avaliacao :=
  Avaliacao (Some "id-a") "a" "2024-03-05T14:00:00.000Z" "otimo"
    (Some "{}") (Some "") "2024-03-05 14:00:00".

(** The same morning with the database file out of reach. *)
Definition outage : env :=
  Env (sao_paulo (Date 2024 3 5) 11) "2024-03-05 14:00:00" false.

End Derived.


(** * Proofs

    ** [json.loads] reads back what [json.dumps] wrote *)
Module JsonFacts.
Import PyStr PyJson Spec.
#[local] Arguments append !_ _ / : simpl nomatch.

Lemma string_app_assoc (a b c : string) : (a +:+ b) +:+ c = a +:+ (b +:+ c).
Proof. induction a as [|x a IH]; simpl; [done | by rewrite IH]. Qed.

Lemma string_app_length (a b : string) :
  String.length (a +:+ b) = (String.length a + String.length b)%nat.
Proof. induction a as [|x a IH]; simpl; [done | by rewrite IH]. Qed.

(** One escaped character is read back as that character (256 cases). *)
Lemma escape_char_scan (c : ascii) (tail : string) :
  scanstring (escape_char c +:+ tail) = push c (scanstring tail).
Proof. destruct c as [[] [] [] [] [] [] [] []]; reflexivity. Qed.

(** [scanstring] undoes [escape] up to the closing quote. *)
Lemma scanstring_escape (s rest : string) :
  scanstring (escape s +:+ String dquote rest) = Some (s, rest).
Proof.
  induction s as [|c s IH]; [done |].
  simpl escape. rewrite string_app_assoc, escape_char_scan, IH. done.
Qed.

Lemma scan_digits_uint (u : Decimal.uint) (rest : string) :
  ends_number rest = true →
  scan_digits (NilEmpty.string_of_uint u +:+ rest) = (u, rest).
Proof.
  intros Hrest. induction u; simpl; rewrite ?IHu; try done.
  destruct rest as [|c r]; [done |]. simpl in *.
  unfold is_digit in Hrest. destruct (digit_of c); [done | done].
Qed.

(** The decimal digits of a positive number start with a non-zero digit. *)
Lemma to_uint_head (p : positive) :
  ∃ c r, NilEmpty.string_of_uint (Pos.to_uint p) = String c r
         ∧ is_digit c = true ∧ c ≠ "0"%char.
Proof.
  pose proof (Unsigned.to_of (Pos.to_uint p)) as Hnorm.
  rewrite Unsigned.of_to in Hnorm. simpl in Hnorm.
  pose proof (Unsigned.to_uint_nonnil p) as Hnil.
  pose proof (Unsigned.to_uint_nonzero p) as Hzero.
  destruct (Pos.to_uint p) as [|u|u|u|u|u|u|u|u|u|u] eqn:E; try done;
    try (eexists _, _; split; [reflexivity | by split]).
  exfalso. rewrite unorm_D0 in Hnorm.
  assert (Hu : u ≠ Decimal.Nil) by (intros ->; done).
  pose proof (nb_digits_unorm u Hu) as Hlen. rewrite <- Hnorm in Hlen.
  simpl in Hlen. lia.
Qed.

Lemma digit_facts (c : ascii) :
  is_digit c = true →
  is_ws c = false ∧ Ascii.eqb c dquote = false ∧ Ascii.eqb c "{" = false
  ∧ Ascii.eqb c "[" = false ∧ Ascii.eqb "]" c = false ∧ Ascii.eqb "-" c = false
  ∧ Ascii.eqb "n" c = false ∧ Ascii.eqb "t" c = false ∧ Ascii.eqb "f" c = false.
Proof.
  destruct c as [[] [] [] [] [] [] [] []]; intros H; try discriminate H;
    repeat split; reflexivity.
Qed.

Lemma scan_natural_of_N (n : N) (rest : string) :
  ends_number rest = true →
  scan_natural (of_N n +:+ rest) = Some (n, rest).
Proof.
  intros Hrest. destruct n as [|p]; [done |].
  unfold of_N. simpl N.to_uint.
  destruct (to_uint_head p) as (c & r & E & Hd & Hz).
  pose proof (scan_digits_uint (Pos.to_uint p) rest Hrest) as Hscan.
  rewrite E in *. simpl. simpl in Hscan.
  apply Ascii.eqb_neq in Hz. rewrite Hz.
  unfold is_digit in Hd. destruct (digit_of c) eqn:Ed; [|done].
  destruct (scan_digits (r +:+ rest)) as [digits rest0].
  injection Hscan as Hu ->. unfold N.of_uint. by rewrite Hu, Unsigned.of_to.
Qed.

Lemma starts_float_tail_ends (rest : string) :
  ends_number rest = true → starts_float_tail rest = false.
Proof.
  destruct rest as [|c r]; [done |]. unfold ends_number.
  intros [_ H]%andb_true_iff. by apply negb_true_iff in H.
Qed.

Lemma of_N_head (n : N) :
  ∃ c r, of_N n = String c r ∧ is_digit c = true.
Proof.
  destruct n as [|p]; [by eexists _, _ |].
  destruct (to_uint_head p) as (c & r & E & Hd & _). eauto.
Qed.

(** [NUMBER_RE] reads back the text of an integer. *)
Lemma scan_number_of_Z (n : Z) (rest : string) :
  ends_number rest = true →
  scan_number (of_Z n +:+ rest) = Some (JInt n, rest).
Proof.
  intros Hrest. pose proof (starts_float_tail_ends rest Hrest) as Hf.
  unfold scan_number. destruct n as [|p|p].
  - simpl. by rewrite Hf.
  - unfold of_Z. pose proof (scan_natural_of_N (N.pos p) rest Hrest) as Hn.
    destruct (of_N_head (N.pos p)) as (c & r & E & Hd).
    rewrite E in *. apply digit_facts in Hd as (_&_&_&_&_&Hm&_).
    cbn [strip_prefix append]. rewrite Hm. cbn [append] in Hn. rewrite Hn. simpl. by rewrite Hf.
  - unfold of_Z. cbn [strip_prefix append]. rewrite Ascii.eqb_refl.
    rewrite (scan_natural_of_N (N.pos p) rest Hrest). simpl. by rewrite Hf.
Qed.

Lemma scan_once_number (fuel : nat) (c : ascii) (r : string) :
  is_digit c = true ∨ c = "-"%char →
  scan_once (S fuel) (String c r) = scan_number (String c r).
Proof.
  destruct c as [[] [] [] [] [] [] [] []]; intros [H|H];
    try discriminate H; reflexivity.
Qed.

Lemma dumps_opens (v : json) : opens_value (dumps v).
Proof.
  destruct v as [|[]|n|s|l|m]; try (by eexists _, _).
  destruct n as [|p|p]; try (by eexists _, _).
  simpl. destruct (of_N_head (N.pos p)) as (c & r & -> & Hd).
  apply digit_facts in Hd as (?&_&_&_&?&_). by eexists _, _.
Qed.

Lemma skip_ws_opens (s rest : string) :
  opens_value s → skip_ws (s +:+ rest) = s +:+ rest.
Proof. intros (c & r & -> & Hws & _). simpl. by rewrite Hws. Qed.

Lemma scan_items_last fuel s v rest acc :
  scan_once fuel s = Some (v, "]" +:+ rest) →
  scan_items (S fuel) s acc = Some (rev (v :: acc), rest).
Proof. intros H. simpl. by rewrite H. Qed.

Lemma scan_items_more fuel s v t acc :
  scan_once fuel s = Some (v, ", " +:+ t) → opens_value t →
  scan_items (S fuel) s acc = scan_items fuel t (v :: acc).
Proof.
  intros H (c & r & -> & Hws & _). simpl. rewrite H. simpl. by rewrite Hws.
Qed.

Lemma concat_cons (sep x y : string) (l : list string) :
  String.concat sep (x :: y :: l) = x +:+ sep +:+ String.concat sep (y :: l).
Proof. done. Qed.

Lemma opens_value_app (s t : string) : opens_value s → opens_value (s +:+ t).
Proof. intros (c & r & -> & ? & ?). by eexists _, _. Qed.

Lemma concat_dumps_opens (x : json) (l : list json) :
  opens_value (String.concat ", " (map dumps (x :: l))).
Proof.
  destruct l; cbn [map]; [apply dumps_opens |].
  rewrite concat_cons. apply opens_value_app, dumps_opens.
Qed.

(** [JSONArray] reads back the items of a dumped list. *)
Lemma scan_items_dumps (l : list json) :
  Forall round_trips l →
  ∀ x acc fuel rest,
    round_trips x → wf x = true → forallb wf l = true →
    (String.length (String.concat ", " (map dumps (x :: l))) < fuel)%nat →
    scan_items fuel (String.concat ", " (map dumps (x :: l)) +:+ "]" +:+ rest) acc
    = Some ((rev acc ++ x :: l)%list, rest).
Proof.
  induction 1 as [|y l Hy Hl IH]; intros x acc fuel rest Hx Hwx Hwl Hfuel;
    (destruct fuel as [|fuel]; [lia |]).
  - cbn [map String.concat] in *.
    by rewrite (scan_items_last _ _ x rest) by (apply Hx; done || lia).
  - apply andb_true_iff in Hwl as [Hwy Hwl].
    cbn [map] in *. rewrite concat_cons in *.
    pose proof (concat_dumps_opens y l) as Hopen. cbn [map] in Hopen.
    rewrite !string_app_length in Hfuel. cbn [String.length] in Hfuel.
    rewrite !string_app_assoc.
    rewrite (scan_items_more _ _ x
               (String.concat ", " (dumps y :: map dumps l) +:+ "]" +:+ rest)).
    + rewrite (IH y) by (done || lia). simpl rev. by rewrite <- List.app_assoc.
    + apply Hx; done || lia.
    + by apply opens_value_app.
Qed.

Lemma scan_members_last fuel s k v t rest acc :
  scanstring s = Some (k, ": " +:+ t) → opens_value t →
  scan_once fuel t = Some (v, "}" +:+ rest) →
  scan_members (S fuel) s acc = Some (rev ((k, v) :: acc), rest).
Proof.
  intros Hk (c & r & -> & Hws & _) Hv. simpl. rewrite Hk. simpl.
  rewrite Hws, Hv. done.
Qed.

Lemma scan_members_more fuel s k v t s' acc :
  scanstring s = Some (k, ": " +:+ t) → opens_value t →
  scan_once fuel t = Some (v, ", " +:+ String dquote s') →
  scan_members (S fuel) s acc = scan_members fuel s' ((k, v) :: acc).
Proof.
  intros Hk (c & r & -> & Hws & _) Hv. simpl. rewrite Hk. simpl.
  rewrite Hws, Hv. done.
Qed.

Lemma encode_member_eq (k : string) (v : json) :
  encode_member dumps (k, v)
  = String dquote (escape k +:+ String dquote (": " +:+ dumps v)).
Proof.
  unfold encode_member, encode_basestring_ascii. simpl.
  by rewrite !string_app_assoc.
Qed.

Lemma members_text_head (k : string) (v : json) (m : list (string * json)) :
  ∃ tail, String.concat ", " (map (encode_member dumps) ((k, v) :: m))
          = String dquote tail.
Proof.
  destruct m; cbn [map]; [|rewrite concat_cons]; rewrite encode_member_eq;
    by eexists.
Qed.

(** [JSONObject] reads back the members of a dumped dict; [s] is the text
    after the opening quote of the first key. *)
Lemma scan_members_dumps (m : list (string * json)) :
  Forall (λ kv, round_trips kv.2) m →
  ∀ k v acc fuel rest s,
    round_trips v → wf v = true → forallb (λ kv, wf kv.2) m = true →
    (String.length (String.concat ", " (map (encode_member dumps) ((k, v) :: m)))
     < fuel)%nat →
    String dquote s
    = String.concat ", " (map (encode_member dumps) ((k, v) :: m)) +:+ "}" +:+ rest →
    scan_members fuel s acc = Some ((rev acc ++ (k, v) :: m)%list, rest).
Proof.
  induction 1 as [|[k' v'] m Hy Hm IH];
    intros k v acc fuel rest s Hv Hwv Hwm Hfuel Hs;
    (destruct fuel as [|fuel]; [lia |]).
  - cbn [map String.concat] in *. rewrite encode_member_eq in *.
    repeat first [ rewrite string_app_length in Hfuel
                 | progress cbn [append String.length] in Hfuel ].
    cbn [append] in Hs. injection Hs as ->.
    rewrite !string_app_assoc. cbn [append].
    rewrite (scan_members_last _ _ k v (dumps v +:+ "}" +:+ rest) rest); try done.
    + by rewrite scanstring_escape.
    + apply opens_value_app, dumps_opens.
    + apply Hv; done || lia.
  - apply andb_true_iff in Hwm as [Hwy Hwm]. cbn [snd] in *.
    specialize (IH k' v').
    destruct (members_text_head k' v' m) as [tail Etail].
    cbn [map] in Hs, Hfuel, Etail, IH.
    rewrite concat_cons in Hs, Hfuel. rewrite Etail in *.
    rewrite encode_member_eq in Hs, Hfuel.
    repeat first [ rewrite string_app_length in Hfuel
                 | progress cbn [append String.length] in Hfuel ].
    cbn [append] in Hs. injection Hs as ->.
    rewrite ?string_app_assoc. cbn [append]. rewrite ?string_app_assoc.
    rewrite (scan_members_more _ _ k v
               (dumps v +:+ ", " +:+ String dquote tail +:+ "}" +:+ rest)
               (tail +:+ "}" +:+ rest)).
    + rewrite (IH ((k, v) :: acc) fuel rest (tail +:+ "}" +:+ rest));
        [| done | done | done | cbn [String.length]; lia | done].
      simpl rev. by rewrite <- List.app_assoc.
    + by rewrite scanstring_escape.
    + apply opens_value_app, dumps_opens.
    + apply Hv; done || lia.
Qed.

Lemma wf_obj (m : list (string * json)) :
  wf (JObj m) = true ↔ NoDup (m.*1) ∧ forallb (λ kv, wf kv.2) m = true.
Proof.
  cbn [wf]. rewrite andb_true_iff, bool_decide_eq_true.
  assert ((fix go (m : list (string * json)) : bool :=
             match m with [] => true | kv :: r => wf kv.2 && go r end) m
          = forallb (λ kv, wf kv.2) m) as ->; [|done].
  induction m as [|kv m IH]; [done |]. cbn [forallb]. by rewrite IH.
Qed.

Lemma dict_set_fresh (d : list (string * json)) (k : string) (v : json) :
  k ∉ d.*1 → dict_set d k v = (d ++ [(k, v)])%list.
Proof.
  induction d as [|[k' v'] d IH]; [done |]. cbn [fmap list_fmap fst].
  intros Hk. apply not_elem_of_cons in Hk as [Hne Hk]. cbn [dict_set].
  destruct (String.eqb_spec k' k) as [->|_]; [done |]. by rewrite IH.
Qed.

Lemma dict_of_pairs_app (d m : list (string * json)) :
  NoDup ((d ++ m)%list.*1) →
  foldl (λ d kv, dict_set d kv.1 kv.2) d m = (d ++ m)%list.
Proof.
  revert d. induction m as [|[k v] m IH]; intros d Hnd.
  - by rewrite List.app_nil_r.
  - cbn [foldl fst snd]. rewrite dict_set_fresh.
    + rewrite IH; rewrite <- List.app_assoc; done.
    + rewrite fmap_app in Hnd. apply NoDup_app in Hnd as (_ & Hd & _).
      intros Hin. apply (Hd k Hin). cbn. left.
Qed.

(** [dict(pairs)] keeps pairs with distinct keys as they are. *)
Lemma dict_of_pairs_nodup (m : list (string * json)) :
  NoDup (m.*1) → dict_of_pairs m = m.
Proof. intros H. unfold dict_of_pairs. by rewrite dict_of_pairs_app. Qed.

Lemma scan_once_string fuel s :
  scan_once (S fuel) (String dquote s)
  = '(str, rest) ← scanstring s; Some (JStr str, rest).
Proof. done. Qed.

Lemma scan_once_array fuel s :
  opens_value s →
  scan_once (S fuel) (String "[" s)
  = '(items, rest) ← scan_items fuel s []; Some (JArr items, rest).
Proof.
  intros (c & r & -> & Hws & Hclose).
  cbn [scan_once]. cbn -[scan_items strip_prefix].
  rewrite Hws. cbn [strip_prefix]. by rewrite Hclose.
Qed.

Lemma scan_once_object fuel s :
  scan_once (S fuel) (String "{" (String dquote s))
  = '(pairs, rest) ← scan_members fuel s []; Some (JObj (dict_of_pairs pairs), rest).
Proof. done. Qed.

Lemma of_Z_head (n : Z) :
  ∃ c r, of_Z n = String c r ∧ (is_digit c = true ∨ c = "-"%char).
Proof.
  destruct n as [|p|p]; [by eexists _, _; split; [|left] | |].
  - destruct (of_N_head (N.pos p)) as (c & r & E & Hd). simpl. eauto.
  - eexists _, _. split; [done | by right].
Qed.

Lemma dumps_nonempty (v : json) : (0 < String.length (dumps v))%nat.
Proof. destruct (dumps_opens v) as (c & r & -> & _). simpl. lia. Qed.

(** The scanner reads back every dumped value, given fuel for its text. *)
Lemma scan_once_dumps (v : json) : round_trips v.
Proof.
  induction v as [|b|n|s|l IH|m IH] using json_ind;
    intros fuel rest Hwf Hfuel Hrest;
    match goal with
    | H : (String.length (dumps ?v) ≤ _)%nat |- _ => pose proof (dumps_nonempty v)
    end; (destruct fuel as [|fuel]; [lia |]).
  - done.
  - by destruct b.
  - cbn [dumps]. destruct (of_Z_head n) as (c & r & E & Hc).
    pose proof (scan_number_of_Z n rest Hrest) as Hn.
    rewrite E in *. cbn [append] in *. by rewrite scan_once_number.
  - cbn [dumps]. unfold encode_basestring_ascii. cbn [append].
    rewrite string_app_assoc. cbn [append].
    by rewrite scan_once_string, scanstring_escape.
  - cbn [dumps] in *. destruct l as [|x l]; [done |].
    apply Forall_cons in IH as [Hx Hl]. cbn [wf forallb] in Hwf.
    apply andb_true_iff in Hwf as [Hwx Hwl].
    repeat first [ rewrite string_app_length in Hfuel
                 | progress cbn [append String.length] in Hfuel ].
    cbn [append]. rewrite !string_app_assoc.
    rewrite scan_once_array by apply opens_value_app, concat_dumps_opens.
    by rewrite scan_items_dumps by (done || lia).
  - cbn [dumps] in *. destruct m as [|[k v] m]; [done |].
    apply Forall_cons in IH as [Hv Hm].
    apply wf_obj in Hwf as [Hnd Hwf]. cbn [forallb snd] in Hwf.
    apply andb_true_iff in Hwf as [Hwv Hwm].
    destruct (members_text_head k v m) as [tail Etail].
    repeat first [ rewrite string_app_length in Hfuel
                 | progress cbn [append String.length] in Hfuel ].
    cbn [append]. rewrite !string_app_assoc.
    pose proof (scan_members_dumps m Hm k v [] fuel rest (tail +:+ "}" +:+ rest)
                  Hv Hwv Hwm) as Hscan.
    rewrite Etail in *. cbn [append] in Hscan |- *.
    rewrite scan_once_object, Hscan by (done || (cbn [String.length] in *; lia)).
    cbn -[dict_of_pairs]. by rewrite dict_of_pairs_nodup.
Qed.

(** [json.loads(json.dumps(v)) == v] for every value of the model. *)
Lemma loads_dumps (v : json) : wf v = true → loads (dumps v) = Some v.
Proof.
  intros Hwf. unfold loads.
  pose proof (skip_ws_opens (dumps v) "" (dumps_opens v)) as Hws.
  pose proof (scan_once_dumps v (S (String.length (dumps v))) "" Hwf) as Hscan.
  assert (dumps v +:+ "" = dumps v) as Hnil.
  { generalize (dumps v). induction s as [|c s IH]; simpl; [done | by rewrite IH]. }
  rewrite Hnil in *. rewrite Hws, Hscan by (done || lia). done.
Qed.
End JsonFacts.

(** ** The handlers *)
Module HandlerFacts.
Import Py PyStr PyJson PyDatetime Sqlite App Spec.
#[local] Arguments fromisoformat : simpl never.
#[local] Arguments isoformat : simpl never.
#[local] Arguments loads : simpl never.
#[local] Arguments dumps : simpl never.
#[local] Arguments replace_char : simpl never.

(** The calendar functions on the dates the examples use. *)
Example days_from_civil_epoch : days_from_civil (Date 1970 1 1) = 0.
Proof. reflexivity. Qed.

Example civil_from_days_leap_day :
  civil_from_days (days_from_civil (Date 2024 2 29)) = Date 2024 2 29
  ∧ civil_from_days (days_from_civil (Date 2024 2 29) + 1) = Date 2024 3 1.
Proof. by vm_compute. Qed.

Example local_date_of_utc_night :
  local_date (-3 * 3600 * 1000000)
    (Datetime (Date 2024 1 2) 1 0 0 0 (Some 0)) = Some (Date 2024 1 1).
Proof. by vm_compute. Qed.

Ltac run_handler :=
  unfold route, try_except, transaction, query, lift, log, logged;
  unfold mbind, M_bind, mret, M_ret.

(** [has_voted_today] never raises: it answers what [eligibility] decides,
    and false, with one ERROR record, when that raises. *)
Lemma has_voted_today_eq e dev w :
  has_voted_today e dev w
  = match eligibility e dev (db w) with
    | Return b => (Return b, w)
    | Raise ex =>
        (Return false, logged w ERROR [Lit "Erro ao verificar voto do dia: "; Exc ex])
    end.
Proof.
  unfold has_voted_today, eligibility, try_except, query, lift, log, logged.
  unfold mbind, M_bind, mret, M_ret.
  destruct (database_ok e); [|done].
  destruct (select_ultimo_voto dev (db w)) as [[s|]|ex]; cbn; try done.
  destruct (fromisoformat (replace_char "Z" "+00:00" s)); cbn; done.
Qed.

Lemma has_voted_today_total e dev w :
  ∃ b w', has_voted_today e dev w = (Return b, w') ∧ db w' = db w.
Proof.
  rewrite has_voted_today_eq. destruct (eligibility e dev (db w)); eauto.
Qed.

(** The validation loop on a JSON object. *)
Lemma first_missing_obj (m : list (string * json)) (fields : list string) :
  ∃ r, first_missing (JObj m) fields = Return r
       ∧ match r with
         | None => ∀ f, f ∈ fields → is_Some (dict_get m f)
         | Some f => f ∈ fields ∧ dict_get m f = None
         end.
Proof.
  induction fields as [|f fields (r & Hr & IH)].
  - exists None. split; [done |]. intros f Hf. by apply elem_of_nil in Hf.
  - cbn [first_missing py_contains]. cbn [mbind result_bind bind].
    destruct (dict_get m f) as [v|] eqn:E.
    + rewrite bool_decide_eq_true_2 by eauto. exists r. split; [done |].
      destruct r as [f'|].
      * destruct IH. split; [by right | done].
      * intros f' [->|Hf']%elem_of_cons; eauto.
    + rewrite bool_decide_eq_false_2 by (by intros [? ?]).
      exists (Some f). split; [done |]. split; [by left | done].
Qed.

Lemma first_missing_complete (m : list (string * json)) :
  complete m → first_missing (JObj m) required_fields = Return None.
Proof.
  intros Hc. destruct (first_missing_obj m required_fields) as ([f|] & Hr & H);
    [|done].
  destruct H as [Hin Hnone]. destruct (Hc f Hin) as [v Hv]. congruence.
Qed.

(** The loop over the fetched rows succeeds when each row does. *)
Lemma mapM_Return {A B} (f : A → result B) (l : list A) (k : list B) :
  mapM f l = Return k ↔ Forall2 (λ x y, f x = Return y) l k.
Proof.
  split.
  - revert k. induction l as [|x l IH]; intros k; cbn [mapM].
    + intros [= <-]. constructor.
    + unfold mbind, result_bind, bind, mret, result_ret.
      destruct (f x) as [y|] eqn:Ey; [|done].
      destruct (mapM f l) as [k'|]; [|done]. intros [= <-].
      constructor; [done | by apply IH].
  - induction 1 as [|x y l k Hxy _ IH]; cbn [mapM]; [done |].
    unfold mbind, result_bind, bind, mret, result_ret in *. by rewrite Hxy, IH.
Qed.

Lemma loadable_rows (rows : list avaliacao) :
  forallb (λ r, match row_to_evaluation r with
                | Return _ => true | Raise _ => false end) rows = true →
  ∃ evs, mapM row_to_evaluation rows = Return evs.
Proof.
  induction rows as [|r rows IH]; cbn [forallb]; [by exists [] |].
  intros [Hr Hrows]%andb_true_iff. destruct (IH Hrows) as [evs Hevs].
  destruct (row_to_evaluation r) as [ev|] eqn:Er; [|done].
  exists (ev :: evs). apply mapM_Return. constructor; [done |].
  by apply mapM_Return.
Qed.

Lemma forallb_Permutation {A} (p : A → bool) (l k : list A) :
  l ≡ₚ k → forallb p l = forallb p k.
Proof.
  induction 1; cbn [forallb]; try congruence.
  by destruct (p x), (p y).
Qed.

Lemma row_to_evaluation_timestamp r ev :
  row_to_evaluation r = Return ev → ev_timestamp ev = av_timestamp r.
Proof.
  unfold row_to_evaluation, mbind, result_bind, bind.
  destruct (match av_setores r with Some _ => _ | None => _ end); [|done].
  by intros [= <-].
Qed.

(** Text comparison is transitive. *)
Lemma compare_le_trans (a b c : string) :
  String.compare a b ≠ Gt → String.compare b c ≠ Gt → String.compare a c ≠ Gt.
Proof.
  revert b c. induction a as [|x a IH]; intros [|y b] [|z c]; simpl; try done.
  unfold Ascii.compare.
  destruct (N.compare_spec (N_of_ascii x) (N_of_ascii y)) as [Exy|Hxy|Hxy];
    destruct (N.compare_spec (N_of_ascii y) (N_of_ascii z)) as [Eyz|Hyz|Hyz];
    destruct (N.compare_spec (N_of_ascii x) (N_of_ascii z)) as [Exz|Hxz|Hxz];
    try done; try lia.
  apply IH.
Qed.

Lemma leb_trans (a b c : string) :
  String.leb a b = true → String.leb b c = true → String.leb a c = true.
Proof.
  unfold String.leb. pose proof (compare_le_trans a b c) as H.
  destruct (String.compare a b), (String.compare b c), (String.compare a c);
    try done; intros; exfalso; by apply H.
Qed.

#[global] Instance timestamp_desc_total : Total timestamp_desc.
Proof. intros a b. unfold timestamp_desc. destruct (leb_total (av_timestamp a) (av_timestamp b)); eauto. Qed.

#[global] Instance timestamp_desc_trans : Transitive timestamp_desc.
Proof. intros a b c Hab Hbc. unfold timestamp_desc in *. by eapply leb_trans. Qed.

Lemma StronglySorted_Forall2 {A B} (R : relation A) (S : relation B)
    (P : A → B → Prop) (l : list A) (k : list B) :
  (∀ a a' b b', P a b → P a' b' → R a a' → S b b') →
  Forall2 P l k → StronglySorted R l → StronglySorted S k.
Proof.
  intros HRS HF. induction HF as [|a b l k Hab HF IH]; intros Hs; [constructor |].
  apply StronglySorted_inv in Hs as [Hs Hall]. constructor; [by apply IH |].
  clear IH Hs. induction HF as [|a' b' l k Hab' HF IH]; [constructor |].
  apply Forall_cons in Hall as [Ha Hall]. constructor; eauto.
Qed.

(** The list operation on a loadable store. *)
Lemma get_evaluations_ok (e : env) (w : world) :
  database_ok e = true → loadable (db w) = true →
  ∃ evs,
    get_evaluations e w = (Response 200 (Evaluations evs (length evs)), w)
    ∧ Forall2 (λ r ev, row_to_evaluation r = Return ev)
        (select_avaliacoes_desc (db w)) evs.
Proof.
  intros Hok Hload. unfold loadable in Hload.
  rewrite (forallb_Permutation _ _ (select_avaliacoes_desc (db w))) in Hload
    by (symmetry; apply merge_sort_Permutation).
  destruct (loadable_rows _ Hload) as [evs Hevs]. exists evs.
  split; [|by apply mapM_Return].
  unfold get_evaluations. run_handler. rewrite Hok. by rewrite Hevs.
Qed.

(** What a committed [save_evaluation] has written. *)
Lemma save_evaluation_inv e data dev d d' :
  save_evaluation e data dev d = Return d' →
  ∃ m idv devv tsv avv idx devt tst avt fbx,
    data = JObj m
    ∧ dict_get m "id" = Some idv ∧ dict_get m "dispositivoId" = Some devv
    ∧ dict_get m "timestamp" = Some tsv ∧ dict_get m "avaliacaoGeral" = Some avv
    ∧ bind_param idv = Return idx
    ∧ stored_text devv = Some (Some devt) ∧ stored_text tsv = Some (Some tst)
    ∧ stored_text avv = Some (Some avt)
    ∧ bind_param (from_option id (JStr "") (dict_get m "feedback")) = Return fbx
    ∧ id_taken (text_affinity idx) (avaliacoes d) = false
    ∧ avaliacoes d'
      = (avaliacoes d
         ++ [Avaliacao (text_affinity idx) devt tst avt
               (Some (dumps (submitted_setores m))) (text_affinity fbx)
               (current_timestamp e)])%list
    ∧ logs_sistema d' = logs_sistema d
    ∧ ∃ devk, stored_text dev = Some (Some devk)
        ∧ controle_votacao d'
          = <[devk := Controle tst (current_timestamp e) (Some (isoformat (get_brazil_time e)))]>
              (controle_votacao d).
Proof.
  unfold save_evaluation, insert_avaliacao, replace_controle, stored_text,
    submitted_setores.
  unfold mbind, result_bind, bind.
  destruct data as [| | | | |m]; try done. cbn [py_getitem py_get].
  destruct (dict_get m "id") as [idv|] eqn:Hid; [|done].
  destruct (dict_get m "dispositivoId") as [devv|] eqn:Hdev; [|done].
  destruct (dict_get m "timestamp") as [tsv|] eqn:Hts; [|done].
  destruct (dict_get m "avaliacaoGeral") as [avv|] eqn:Hav; [|done].
  cbn [or_raise].
  destruct (bind_param idv) as [idx|] eqn:Eid; [|done].
  destruct (bind_param devv) as [devx|] eqn:Edev; [|done].
  destruct (bind_param tsv) as [tsx|] eqn:Ets; [|done].
  destruct (bind_param avv) as [avx|] eqn:Eav; [|done].
  destruct (bind_param (from_option id (JStr "") (dict_get m "feedback")))
    as [fbx|] eqn:Efb; [|done].
  unfold not_null.
  destruct (text_affinity devx) as [devt|] eqn:Edevt; [|done].
  destruct (text_affinity tsx) as [tst|] eqn:Etst; [|done].
  destruct (text_affinity avx) as [avt|] eqn:Eavt; [|done].
  cbn [or_raise].
  destruct (id_taken (text_affinity idx) (avaliacoes d)) eqn:Etaken; [done |].
  destruct (bind_param dev) as [devx'|] eqn:Edev'; [|done].
  cbn [avaliacoes controle_votacao logs_sistema or_raise].
  destruct (text_affinity devx') as [devk|] eqn:Edevk; [|done].
  cbn [or_raise]. intros [= <-].
  exists m, idv, devv, tsv, avv, idx, devt, tst, avt, fbx.
  rewrite Edev, Ets, Eav, Edevt, Etst, Eavt.
  do 13 (split; [done |]). by exists devk.
Qed.

(** A submission either leaves the tables alone or is accepted, and then it
    committed [save_evaluation]. *)
Lemma submit_outcome e data w r w' :
  submit_evaluation e data w = (r, w') →
  (status r ≠ 200 ∧ db w' = db w)
  ∨ (status r = 200
     ∧ ∃ m dev d1,
         data = JObj m ∧ dict_get m "dispositivoId" = Some dev
         ∧ (has_voted_today e dev w).1 = Return false
         ∧ database_ok e = true
         ∧ save_evaluation e data dev (db w) = Return d1
         ∧ avaliacoes (db w') = avaliacoes d1
         ∧ controle_votacao (db w') = controle_votacao d1).
Proof.
  unfold submit_evaluation, log_action. run_handler.
  destruct (first_missing data required_fields) as [[f|]|ex];
    [intros [= <- <-]; by left | | intros [= <- <-]; by left].
  destruct (py_getitem data "dispositivoId") as [dev|ex] eqn:Edev;
    [|intros [= <- <-]; by left].
  pose proof (has_voted_today_eq e dev w) as Hv.
  destruct (has_voted_today e dev w) as [[voted|ex] w1] eqn:Evoted;
    [|destruct (eligibility e dev (db w)); done].
  assert (db w1 = db w) as Hdb.
  { destruct (eligibility e dev (db w)); by injection Hv as _ ->. }
  destruct voted; [intros [= <- <-]; by left |].
  destruct (database_ok e) eqn:Hok; [|intros [= <- <-]; by left].
  destruct (save_evaluation e data dev (db w1)) as [d1|ex] eqn:Esave;
    [|intros [= <- <-]; by left].
  rewrite Hdb in Esave.
  destruct (save_evaluation_inv _ _ _ _ _ Esave)
    as (m & idv & devv & tsv & avv & ? & ? & ? & ? & ? & -> & Hid & Hd & Hts & Hav & _).
  cbn [py_getitem or_raise] in *. rewrite Hid, Hav. cbn [or_raise db logger].
  intros [= <- <-]. right. split; [done |].
  exists m, dev, d1. rewrite Hd in Edev. injection Edev as <-. by rewrite Evoted.
Qed.

Lemma wf_member (m : list (string * json)) (k : string) (v : json) :
  wf (JObj m) = true → dict_get m k = Some v → wf v = true.
Proof.
  intros [_ Hall]%JsonFacts.wf_obj. induction m as [|[k' v'] m IH]; [done |].
  cbn [forallb snd] in Hall. apply andb_true_iff in Hall as [Hv Hall].
  cbn [dict_get]. destruct (String.eqb k' k); [by intros [= <-] | by apply IH].
Qed.

Lemma dumps_truthy (v : json) : truthy (dumps v) = true.
Proof. by destruct (JsonFacts.dumps_opens v) as (c & r & -> & _). Qed.

Lemma row_to_evaluation_dumped i d t a v fb c :
  wf v = true →
  row_to_evaluation (Avaliacao i d t a (Some (dumps v)) fb c)
  = Return (Evaluation i d t a v (from_option id "" fb)).
Proof.
  intros Hwf. unfold row_to_evaluation. cbn [av_setores].
  rewrite dumps_truthy, (JsonFacts.loads_dumps v Hwf). done.
Qed.

Lemma submitted_setores_wf (m : list (string * json)) :
  wf (JObj m) = true → wf (submitted_setores m) = true.
Proof.
  intros Hwf. unfold submitted_setores.
  destruct (dict_get m "setores") as [v|] eqn:E; [|done].
  by apply (wf_member m "setores").
Qed.

Lemma loadable_snoc (d d' : store) (row : avaliacao) (ev : evaluation) :
  avaliacoes d' = (avaliacoes d ++ [row])%list →
  loadable d = true → row_to_evaluation row = Return ev → loadable d' = true.
Proof.
  unfold loadable. intros -> Hd Hrow. rewrite forallb_app, Hd. cbn [forallb].
  by rewrite Hrow.
Qed.

Lemma get_evaluations_response (e : env) (w1 w2 : world) :
  avaliacoes (db w1) = avaliacoes (db w2) →
  (get_evaluations e w1).1 = (get_evaluations e w2).1.
Proof.
  intros Hav. unfold get_evaluations, select_avaliacoes_desc. run_handler.
  rewrite Hav. destruct (database_ok e); [|done].
  by destruct (mapM row_to_evaluation _).
Qed.

Lemma id_taken_elem (i : string) (rows : list avaliacao) :
  (∃ row, row ∈ rows ∧ av_id row = Some i) → id_taken (Some i) rows = true.
Proof.
  intros (row & Hin & Hid). cbn [id_taken]. apply existsb_exists.
  exists row. split; [by apply list_elem_of_In | by apply bool_decide_eq_true].
Qed.

(** An id that is already stored makes the first INSERT fail. *)
Lemma save_evaluation_taken e m dev d idv i :
  dict_get m "id" = Some idv → stored_text idv = Some (Some i) →
  (∃ row, row ∈ avaliacoes d ∧ av_id row = Some i) →
  ∃ ex, save_evaluation e (JObj m) dev d = Raise ex
        ∧ (well_typed m → ex = IntegrityError "UNIQUE constraint failed: avaliacoes.id").
Proof.
  intros Hid Htext Hrow. apply id_taken_elem in Hrow.
  unfold stored_text in Htext.
  destruct (bind_param idv) as [idx|] eqn:Eidx; [|done]. injection Htext as Htext.
  destruct (save_evaluation e (JObj m) dev d) as [d'|ex] eqn:Esave.
  - destruct (save_evaluation_inv _ _ _ _ _ Esave)
      as (m' & idv' & ? & ? & ? & idx' & ? & ? & ? & ?
          & [= <-] & Hid' & _ & _ & _ & Hidx' & _ & _ & _ & _ & Hfree & _).
    rewrite Hid in Hid'. injection Hid' as <-. rewrite Eidx in Hidx'.
    injection Hidx' as <-. rewrite Htext in Hfree. congruence.
  - exists ex. split; [done |]. intros [Hreq Hfb].
    destruct (Hreq "id") as [s1 H1]; [apply list_elem_of_In; simpl; tauto |].
    destruct (Hreq "dispositivoId") as [s2 H2]; [apply list_elem_of_In; simpl; tauto |].
    destruct (Hreq "timestamp") as [s3 H3]; [apply list_elem_of_In; simpl; tauto |].
    destruct (Hreq "avaliacaoGeral") as [s4 H4]; [apply list_elem_of_In; simpl; tauto |].
    revert Esave. unfold save_evaluation, insert_avaliacao.
    unfold mbind, result_bind, bind. cbn [py_getitem py_get].
    rewrite H1, H2, H3, H4. cbn [or_raise]. rewrite Hid in H1.
    injection H1 as ->. cbn in Eidx. injection Eidx as <-. cbn in Htext.
    injection Htext as ->.
    assert (∃ x, bind_param (from_option id (JStr "") (dict_get m "feedback"))
                 = Return x) as [x ->].
    { destruct Hfb as [->|[s ->]]; by eexists. }
    cbn -[id_taken]. rewrite Hrow. by intros [= <-].
Qed.

Lemma count_of_count_occ (k : string) (keys : list string) :
  count_of k keys = count_occ string_dec keys k.
Proof.
  unfold count_of. induction keys as [|x keys IH]; [done |].
  rewrite filter_cons. cbn [count_occ].
  destruct (decide (x = k)) as [->|Hne]; destruct (string_dec _ _); try done;
    cbn [length]; by rewrite ?IH.
Qed.

(** The dict built from the GROUP BY rows, key by key. *)
Lemma distribuicao_lookup (d : store) (v : string) :
  (list_to_map (select_group_count d) : gmap string nat) !! v
  = match count_occ string_dec (ratings d) v with
    | O => None
    | S n => Some (S n)
    end.
Proof.
  unfold select_group_count. fold (ratings d).
  destruct (count_occ string_dec (ratings d) v) as [|n] eqn:En.
  - apply not_elem_of_list_to_map. rewrite <- list_fmap_compose.
    rewrite (list_fmap_ext _ id (remove_dups (ratings d))), list_fmap_id by done.
    rewrite elem_of_remove_dups. intros Hin%list_elem_of_In.
    apply (count_occ_In string_dec) in Hin. lia.
  - apply elem_of_list_to_map.
    + rewrite <- list_fmap_compose.
      rewrite (list_fmap_ext _ id (remove_dups (ratings d))), list_fmap_id by done.
      apply NoDup_remove_dups.
    + apply list_elem_of_fmap. exists v. rewrite count_of_count_occ, En.
      split; [done |]. apply elem_of_remove_dups, list_elem_of_In.
      apply (count_occ_In string_dec). lia.
Qed.

(** What the code compares: the date as written in the stored timestamp
    against the local date of now. *)
Lemma has_voted_today_written_date (e : env) (k : string) (w : world) (row : controle)
    (dt : datetime) :
  database_ok e = true →
  controle_votacao (db w) !! k = Some row →
  fromisoformat (replace_char "Z" "+00:00" (cv_ultimo_voto row)) = Some dt →
  has_voted_today e (JStr k) w
  = (Return (date_eqb (date_part dt) (date_part (get_brazil_time e))), w).
Proof.
  intros Hok Hrow Hdt. rewrite has_voted_today_eq. unfold eligibility.
  rewrite Hok. unfold select_ultimo_voto.
  cbn [bind_param mbind result_bind bind text_affinity]. rewrite Hrow.
  cbn [fmap option_fmap option_map]. by rewrite Hdt.
Qed.

Lemma route_db label (h : M response) (w : world) :
  (∀ w1 x, h w = (x, w1) → db w1 = db w) → db (route label h w).2 = db w.
Proof.
  intros H. unfold route. destruct (h w) as [[r|ex] w1] eqn:E; cbn; eauto.
Qed.

Lemma get_evaluations_db e w : db (get_evaluations e w).2 = db w.
Proof.
  apply route_db. run_handler. intros w1 x.
  destruct (database_ok e); [|by intros [= _ <-]].
  destruct (mapM row_to_evaluation _); by intros [= _ <-].
Qed.

Lemma check_vote_db e dev w : db (check_vote e dev w).2 = db w.
Proof.
  apply route_db. run_handler. intros w1 x. rewrite has_voted_today_eq.
  destruct (eligibility e (JStr dev) (db w)); by intros [= _ <-].
Qed.

Lemma get_statistics_db f e w : db (get_statistics f e w).2 = db w.
Proof.
  apply route_db. run_handler. intros w1 x.
  destruct (database_ok e); by intros [= _ <-].
Qed.

Lemma reset_timer_avaliacoes e w :
  avaliacoes (db (reset_timer e w).2) = avaliacoes (db w).
Proof.
  unfold reset_timer, log_action. run_handler.
  destruct (database_ok e); done.
Qed.

Lemma loadable_avaliacoes (d d' : store) :
  avaliacoes d' = avaliacoes d → loadable d' = loadable d.
Proof. unfold loadable. by intros ->. Qed.

Lemma ids_unique_avaliacoes (d d' : store) :
  avaliacoes d' = avaliacoes d → ids_unique d → ids_unique d'.
Proof. unfold ids_unique. by intros ->. Qed.

Lemma id_taken_false (i : option string) (rows : list avaliacao) :
  id_taken i rows = false → ∀ x, i = Some x → x ∉ omap av_id rows.
Proof.
  intros Hfree x ->. cbn [id_taken] in Hfree.
  intros (row & Hin & Hid)%list_elem_of_omap.
  assert (existsb (λ r, bool_decide (av_id r = Some x)) rows = true) as Hex; [|congruence].
  apply existsb_exists. exists row. split; [by apply list_elem_of_In |].
  by apply bool_decide_eq_true.
Qed.

(** Whatever requests were served, every stored row can be listed and the
    primary key of [avaliacoes] holds. *)
Lemma reachable_invariant (w : world) :
  reachable w → loadable (db w) = true ∧ ids_unique (db w).
Proof.
  induction 1 as [|e r w Hw [Hload Hids] Hreq].
  - split; [done | constructor].
  - destruct r as [|data|dev| |f]; cbn [serve].
    + by rewrite get_evaluations_db.
    + destruct (submit_evaluation e data w) as [resp w'] eqn:Esub. cbn [snd].
      destruct (submit_outcome _ _ _ _ _ Esub) as [[_ ->]|[_ Hacc]]; [done |].
      destruct Hacc as (m & dev & d1 & -> & _ & _ & _ & Hsave & Hav & _).
      destruct (save_evaluation_inv _ _ _ _ _ Hsave)
        as (m' & idv & devv & tsv & avv & idx & devt & tst & avt & fbx
            & [= <-] & _ & _ & _ & _ & _ & _ & _ & _ & _ & Hfree & Hrows & _).
      rewrite <- Hav in Hrows. split.
      * eapply loadable_snoc; [done | done |].
        apply row_to_evaluation_dumped, submitted_setores_wf, Hreq.
      * unfold ids_unique. rewrite Hrows, omap_app. apply NoDup_app.
        split; [done |]. cbn [omap list_omap av_id]. split.
        -- intros x Hx. destruct (text_affinity idx) as [i|] eqn:Ei;
             [|by intros ?%elem_of_nil].
           intros ->%list_elem_of_singleton.
           by apply (id_taken_false _ _ Hfree i).
        -- destruct (text_affinity idx); [apply NoDup_singleton | constructor].
    + by rewrite check_vote_db.
    + split.
      * by rewrite (loadable_avaliacoes (db w)) by apply reset_timer_avaliacoes.
      * by apply (ids_unique_avaliacoes (db w)); [apply reset_timer_avaliacoes |].
    + by rewrite get_statistics_db.
Qed.


End HandlerFacts.


(** * The properties of the specification *)

Import Py PyStr PyJson PyDatetime Sqlite App Spec HandlerFacts.
#[local] Arguments fromisoformat : simpl never.
#[local] Arguments isoformat : simpl never.
#[local] Arguments loads : simpl never.
#[local] Arguments dumps : simpl never.
#[local] Arguments replace_char : simpl never.

(** ** Eligibility *)

(** C1.  The specification asks [has_voted_today] to compare calendar dates
    in the local zone.  The code compares the date as written in the stored
    timestamp with the local date of now.  A terminal votes at 22:00 local
    time; its browser stamps the vote 01:00 UTC of the next day; the vote is
    accepted and stored.  One hour later, the same local day, the stored
    instant and now fall on the same local date, and yet [has_voted_today]
    answers false. *)
Theorem has_voted_today_misses_evening_vote :
  let w := (submit_evaluation at_22h evening_vote initial).2 in
  status (submit_evaluation at_22h evening_vote initial).1 = 200
  ∧ cv_ultimo_voto <$> controle_votacao (db w) !! "totem-7"
    = Some "2024-01-02T01:00:00.000Z"
  ∧ voted_on_local_day (get_brazil_time at_23h) "2024-01-02T01:00:00.000Z" = Some true
  ∧ (has_voted_today at_23h (JStr "totem-7") w).1 = Return false.
Proof. by vm_compute. Qed.

(** C9.  A device with no row in [controle_votacao] has not voted:
    [has_voted_today] returns false, it does not raise, and when the
    database answers nothing at all is touched. *)
Theorem unknown_device_has_not_voted (e : env) (dispositivo_id : string) (w : world) :
  controle_votacao (db w) !! dispositivo_id = None →
  (has_voted_today e (JStr dispositivo_id) w).1 = Return false
  ∧ (database_ok e = true →
     has_voted_today e (JStr dispositivo_id) w = (Return false, w)).
Proof.
  intros Hnone. rewrite has_voted_today_eq. unfold eligibility.
  destruct (database_ok e); [|done].
  unfold select_ultimo_voto. cbn [bind_param mbind result_bind bind text_affinity].
  by rewrite Hnone.
Qed.

Lemma unknown_device_has_not_voted_witness :
  (has_voted_today late_morning (JStr "totem-9") three_evaluations).1 = Return false
  ∧ (database_ok late_morning = true →
     has_voted_today late_morning (JStr "totem-9") three_evaluations
     = (Return false, three_evaluations)).
Proof. apply unknown_device_has_not_voted. by vm_compute. Defined.

(** C7.  When the database cannot be read, or the stored [ultimo_voto] of
    the device cannot be parsed, [has_voted_today] does not raise: it returns
    false, leaves the tables as they are, and the exception goes to the
    logger. *)
Theorem has_voted_today_degrades_to_false (e : env) (dispositivo_id : string)
    (w : world) :
  database_ok e = false
  ∨ (∃ row, controle_votacao (db w) !! dispositivo_id = Some row
            ∧ fromisoformat (replace_char "Z" "+00:00" (cv_ultimo_voto row)) = None) →
  ∃ ex,
    has_voted_today e (JStr dispositivo_id) w
    = (Return false,
       World (db w)
         (logger w ++ [LogRecord ERROR [Lit "Erro ao verificar voto do dia: "; Exc ex]])).
Proof.
  intros H. rewrite has_voted_today_eq. unfold eligibility, logged.
  destruct (database_ok e) eqn:Hok; [|by eexists].
  destruct H as [|(row & Hrow & Hbad)]; [done |].
  unfold select_ultimo_voto. cbn [bind_param mbind result_bind bind text_affinity].
  rewrite Hrow. cbn [fmap option_fmap option_map]. rewrite Hbad. by eexists.
Qed.

Lemma has_voted_today_degrades_to_false_witness :
  let w := (submit_evaluation late_morning
              (JObj [("id", JStr "av-0002"); ("dispositivoId", JStr "totem-3");
                     ("timestamp", JStr "ontem"); ("avaliacaoGeral", JStr "bom")])
              initial).2 in
  ∃ ex,
    has_voted_today late_morning (JStr "totem-3") w
    = (Return false,
       World (db w)
         (logger w ++ [LogRecord ERROR [Lit "Erro ao verificar voto do dia: "; Exc ex]])).
Proof.
  apply has_voted_today_degrades_to_false. right.
  exists (Controle "ontem" "2024-03-05 14:00:00" (Some "2024-03-05T11:00:00-03:00")).
  split; by vm_compute.
Defined.

(** ** Submission *)

(** C3.  A JSON object that lacks one of [id], [dispositivoId], [timestamp],
    [avaliacaoGeral] is answered 400, naming a missing field, and the world
    is left exactly as it was: no row of any table is written. *)
Theorem submit_missing_field_rejected (e : env) (m : list (string * json)) (w : world) :
  (∃ field, field ∈ required_fields ∧ dict_get m field = None) →
  ∃ field,
    field ∈ required_fields ∧ dict_get m field = None
    ∧ submit_evaluation e (JObj m) w
      = (Response 400 (Failure ("Campo obrigatório ausente: " +:+ field)), w).
Proof.
  intros (f0 & Hin0 & Hnone0).
  destruct (first_missing_obj m required_fields) as ([f|] & Hr & H).
  - destruct H as [Hin Hnone]. exists f. split; [done |]. split; [done |].
    unfold submit_evaluation. run_handler. by rewrite Hr.
  - destruct (H f0 Hin0) as [v Hv]. congruence.
Qed.

Lemma submit_missing_field_rejected_witness :
  ∃ field,
    field ∈ required_fields
    ∧ dict_get [("id", JStr "av-0003"); ("timestamp", JStr "2024-03-05T14:00:00.000Z")]
        field = None
    ∧ submit_evaluation late_morning
        (JObj [("id", JStr "av-0003"); ("timestamp", JStr "2024-03-05T14:00:00.000Z")])
        three_evaluations
      = (Response 400 (Failure ("Campo obrigatório ausente: " +:+ field)),
         three_evaluations).
Proof.
  apply submit_missing_field_rejected. exists "avaliacaoGeral".
  split; [|reflexivity]. apply list_elem_of_In. simpl. tauto.
Defined.



(** C8.  A complete submission from an eligible device whose id is already
    the id of a stored evaluation is answered 500 and no table changes: the
    stored evaluation is not overwritten.  For a payload of strings on a
    usable database the exception is the UNIQUE violation of the primary
    key. *)
Theorem submit_duplicate_id_rejected (e : env) (m : list (string * json))
    (w : world) (dispositivo_id idv : json) (i : string) :
  complete m →
  dict_get m "id" = Some idv → stored_text idv = Some (Some i) →
  (∃ row, row ∈ avaliacoes (db w) ∧ av_id row = Some i) →
  dict_get m "dispositivoId" = Some dispositivo_id →
  (has_voted_today e dispositivo_id w).1 = Return false →
  ∃ ex w',
    submit_evaluation e (JObj m) w = (Response 500 (Crashed ex), w')
    ∧ db w' = db w
    ∧ (database_ok e = true → well_typed m →
       ex = IntegrityError "UNIQUE constraint failed: avaliacoes.id").
Proof.
  intros Hc Hid Htext Hrow Hdev Hvoted. rewrite has_voted_today_eq in Hvoted.
  unfold submit_evaluation. run_handler.
  rewrite (first_missing_complete m Hc). cbn [py_getitem or_raise]. rewrite Hdev.
  cbn [or_raise]. rewrite has_voted_today_eq.
  destruct (save_evaluation_taken e m dispositivo_id (db w) idv i Hid Htext Hrow)
    as (ex & Hsave & Hex).
  destruct (eligibility e dispositivo_id (db w)) as [[]|ex0]; [done | |];
    unfold logged; cbn [db logger]; (destruct (database_ok e); [rewrite Hsave |]);
    eexists _, _; (split; [done |]); (split; [done |]); try done; auto.
Qed.

Lemma submit_duplicate_id_rejected_witness :
  ∃ ex w',
    submit_evaluation late_morning
      (JObj [("id", JStr "id-a"); ("dispositivoId", JStr "z");
             ("timestamp", JStr "2024-03-05T15:00:00.000Z");
             ("avaliacaoGeral", JStr "ruim")])
      three_evaluations
    = (Response 500 (Crashed ex), w')
    ∧ db w' = db three_evaluations
    ∧ (database_ok late_morning = true →
       well_typed [("id", JStr "id-a"); ("dispositivoId", JStr "z");
                   ("timestamp", JStr "2024-03-05T15:00:00.000Z");
                   ("avaliacaoGeral", JStr "ruim")] →
       ex = IntegrityError "UNIQUE constraint failed: avaliacoes.id").
Proof.
  apply (submit_duplicate_id_rejected late_morning _ three_evaluations
           (JStr "z") (JStr "id-a") "id-a").
  - intros f Hf. apply list_elem_of_In in Hf. simpl in Hf.
    destruct Hf as [<-|[<-|[<-|[<-|[]]]]]; by eexists.
  - reflexivity.
  - reflexivity.
  - exists (Avaliacao (Some "id-a") "a" "2024-03-05T14:00:00.000Z" "otimo"
              (Some "{}") (Some "") "2024-03-05 14:00:00").
    split; [vm_compute; apply list_elem_of_here | reflexivity].
  - reflexivity.
  - by vm_compute.
Defined.



(** ** Listing *)

(** C10.  On a store the service has reached, the list operation answers
    200 with every stored evaluation exactly once, newest timestamp first:
    each entry's timestamp is at least (as text, character by character)
    that of every entry after it. *)
Theorem get_evaluations_newest_first (e : env) (w : world) :
  database_ok e = true → reachable w →
  ∃ evs rows,
    get_evaluations e w = (Response 200 (Evaluations evs (length evs)), w)
    ∧ rows ≡ₚ avaliacoes (db w)
    ∧ Forall2 (λ r ev, row_to_evaluation r = Return ev) rows evs
    ∧ StronglySorted newest_first evs.
Proof.
  intros Hok Hreach. destruct (reachable_invariant w Hreach) as [Hload _].
  destruct (get_evaluations_ok e w Hok Hload) as (evs & Hget & HF).
  exists evs, (select_avaliacoes_desc (db w)). split; [done |].
  split; [apply merge_sort_Permutation |]. split; [done |].
  eapply (StronglySorted_Forall2 timestamp_desc); [| exact HF |].
  - intros r r' ev ev' Hr Hr' Hrr. unfold newest_first, timestamp_desc in *.
    by rewrite (row_to_evaluation_timestamp _ _ Hr),
               (row_to_evaluation_timestamp _ _ Hr').
  - apply StronglySorted_merge_sort; apply _.
Qed.

Lemma get_evaluations_newest_first_witness :
  ∃ evs rows,
    get_evaluations late_morning three_evaluations
    = (Response 200 (Evaluations evs (length evs)), three_evaluations)
    ∧ rows ≡ₚ avaliacoes (db three_evaluations)
    ∧ Forall2 (λ r ev, row_to_evaluation r = Return ev) rows evs
    ∧ StronglySorted newest_first evs.
Proof.
  apply get_evaluations_newest_first; [reflexivity |].
  apply (reachable_serve late_morning (SubmitEvaluation (kiosk "c" "regular" [])));
    [|by vm_compute].
  apply (reachable_serve late_morning
           (SubmitEvaluation (kiosk "b" "otimo" [("feedback", JStr "muito bom")])));
    [|by vm_compute].
  apply (reachable_serve late_morning (SubmitEvaluation (kiosk "a" "otimo" [])));
    [|by vm_compute].
  apply reachable_initial.
Defined.

(** ** Reset *)

(** C6.  On a usable database [reset_timer] answers 200, empties
    [controle_votacao] and keeps [avaliacoes]: afterwards [has_voted_today]
    is false for every device, and the list operation answers what it
    answered before. *)
Theorem reset_timer_clears_votes_only (e : env) (w : world) :
  database_ok e = true →
  ∃ w',
    reset_timer e w
    = (Response 200 (Reset "Timer resetado com sucesso" (isoformat (get_brazil_time e))), w')
    ∧ controle_votacao (db w') = ∅
    ∧ avaliacoes (db w') = avaliacoes (db w)
    ∧ (∀ e' dispositivo_id, (has_voted_today e' dispositivo_id w').1 = Return false)
    ∧ (∀ e', (get_evaluations e' w').1 = (get_evaluations e' w).1).
Proof.
  intros Hok. unfold reset_timer, log_action. run_handler. rewrite Hok.
  cbn [db logger]. eexists. split; [done |]. cbn [db controle_votacao insert_log
    delete_controle avaliacoes].
  split; [done |]. split; [done |]. split.
  - intros e' dev. rewrite has_voted_today_eq. unfold eligibility.
    destruct (database_ok e'); [|done]. unfold select_ultimo_voto.
    cbn [db controle_votacao insert_log delete_controle].
    unfold mbind, result_bind, bind. destruct (bind_param dev) as [x|]; [|done].
    destruct (text_affinity x); [|done]. by rewrite lookup_empty.
  - intros e'. by apply get_evaluations_response.
Qed.

Lemma reset_timer_clears_votes_only_witness :
  (has_voted_today late_morning (JStr "a") three_evaluations).1 = Return true
  ∧ ∃ w',
      reset_timer late_morning three_evaluations
      = (Response 200 (Reset "Timer resetado com sucesso" (isoformat (get_brazil_time late_morning))),
         w')
      ∧ controle_votacao (db w') = ∅
      ∧ avaliacoes (db w') = avaliacoes (db three_evaluations)
      ∧ (∀ e' dispositivo_id, (has_voted_today e' dispositivo_id w').1 = Return false)
      ∧ (∀ e', (get_evaluations e' w').1 = (get_evaluations e' three_evaluations).1).
Proof.
  split; [by vm_compute |]. apply reset_timer_clears_votes_only. reflexivity.
Defined.

(** ** Statistics *)

(** C4.  On a usable database the statistics operation answers 200 with:
    [totalAvaliacoes], the number of rows; [distribuicao], which maps each
    rating that occurs to the number of its occurrences and has no entry for
    a rating that does not occur; [totalFeedbacks], the number of rows whose
    feedback is present and not empty.  After three terminals voted [otimo],
    [otimo] (with a comment) and [regular], the totals are 3,
    [{otimo: 2, regular: 1}] and 1. *)
Theorem statistics_counts :
  (∀ (sqlite_date : string → option string) (e : env) (w : world),
     database_ok e = true →
     ∃ s,
       get_statistics sqlite_date e w = (Response 200 (Statistics s), w)
       ∧ totalAvaliacoes s = length (avaliacoes (db w))
       ∧ (∀ v, distribuicao s !! v
               = match count_occ string_dec (ratings (db w)) v with
                 | O => None
                 | S n => Some (S n)
                 end)
       ∧ totalFeedbacks s
         = length (filter (λ r, has_text (av_feedback r)) (avaliacoes (db w))))
  ∧ (∀ sqlite_date,
       ratings (db three_evaluations) = ["otimo"; "otimo"; "regular"]
       ∧ ∃ s,
           (get_statistics sqlite_date late_morning three_evaluations).1
           = Response 200 (Statistics s)
           ∧ totalAvaliacoes s = 3%nat
           ∧ distribuicao s = {[ "otimo" := 2%nat; "regular" := 1%nat ]}
           ∧ totalFeedbacks s = 1%nat).
Proof.
  split.
  - intros sqlite_date e w Hok. unfold get_statistics. run_handler. rewrite Hok.
    eexists. split; [done |]. cbn [totalAvaliacoes distribuicao totalFeedbacks].
    split; [done |]. split; [apply distribuicao_lookup |].
    unfold select_count_feedback. f_equal. apply list_filter_iff. intros r.
    unfold has_feedback, has_text. destruct (av_feedback r) as [f|].
    + destruct (String.eqb_spec f "") as [->|Hne]; cbn; split; try done.
      * intros (? & [= <-] & ?). done.
      * intros _. by exists f.
    + split; [done | by intros (? & ? & ?)].
  - intros sqlite_date. split; [vm_compute; reflexivity |].
    eexists. split; [vm_compute; reflexivity |].
    split; [|split]; vm_compute; reflexivity.
Qed.

Lemma statistics_counts_witness :
  ∃ s,
    get_statistics (λ _, None) late_morning three_evaluations
    = (Response 200 (Statistics s), three_evaluations)
    ∧ totalAvaliacoes s = length (avaliacoes (db three_evaluations))
    ∧ (∀ v, distribuicao s !! v
            = match count_occ string_dec (ratings (db three_evaluations)) v with
              | O => None
              | S n => Some (S n)
              end)
    ∧ totalFeedbacks s
      = length (filter (λ r, has_text (av_feedback r))
                  (avaliacoes (db three_evaluations))).
Proof. apply (proj1 statistics_counts). reflexivity. Defined.


(** * Further properties of the code

    ** Lemmas *)
Module CoverageFacts.
Import Derived.

(** [has_voted_today] on a string key, in closed form. *)
Lemma has_voted_today_answer (e : env) (b : string) (w : world) :
  (has_voted_today e (JStr b) w).1 = Return (answer e (controle_votacao (db w) !! b))
  ∧ db (has_voted_today e (JStr b) w).2 = db w.
Proof.
  rewrite has_voted_today_eq. unfold eligibility, answer, written_day_matches.
  destruct (database_ok e); [|done]. unfold select_ultimo_voto.
  cbn [bind_param mbind result_bind bind text_affinity].
  destruct (controle_votacao (db w) !! b) as [row|]; [|done].
  cbn [fmap option_fmap option_map].
  by destruct (fromisoformat _).
Qed.

(** The store an accepted submission leaves. *)
Lemma submit_accepted_db e data w r w' :
  submit_evaluation e data w = (r, w') → status r = 200 →
  ∃ m dev d1 idv avv,
    data = JObj m ∧ dict_get m "dispositivoId" = Some dev
    ∧ dict_get m "id" = Some idv ∧ dict_get m "avaliacaoGeral" = Some avv
    ∧ (has_voted_today e dev w).1 = Return false
    ∧ database_ok e = true
    ∧ save_evaluation e data dev (db w) = Return d1
    ∧ r = Response 200 (Saved "Avaliação salva com sucesso" idv)
    ∧ db w' = insert_log "AVALIACAO_ENVIADA"
                [Lit "Dispositivo: "; Val dev; Lit ", Avaliação: "; Val avv]
                (isoformat (get_brazil_time e)) d1.
Proof.
  unfold submit_evaluation, log_action. run_handler.
  destruct (first_missing data required_fields) as [[f|]|ex];
    [by intros [= <- <-] | | by intros [= <- <-]].
  destruct (py_getitem data "dispositivoId") as [dev|ex] eqn:Edev;
    [|by intros [= <- <-]].
  pose proof (has_voted_today_eq e dev w) as Hv.
  destruct (has_voted_today e dev w) as [[voted|ex] w1] eqn:Evoted;
    [|destruct (eligibility e dev (db w)); done].
  assert (db w1 = db w) as Hdb.
  { destruct (eligibility e dev (db w)); by injection Hv as _ ->. }
  destruct voted; [by intros [= <- <-] |].
  destruct (database_ok e) eqn:Hok; [|by intros [= <- <-]].
  destruct (save_evaluation e data dev (db w1)) as [d1|ex] eqn:Esave;
    [|by intros [= <- <-]].
  rewrite Hdb in Esave.
  destruct (save_evaluation_inv _ _ _ _ _ Esave)
    as (m & idv & devv & tsv & avv & ? & ? & ? & ? & ? & -> & Hid & Hd & Hts & Hav & _).
  cbn [py_getitem or_raise] in *. rewrite Hid, Hav. cbn [or_raise db logger].
  intros [= <- <-] _. rewrite Hd in Edev. injection Edev as <-.
  exists m, devv, d1, idv, avv. by rewrite Evoted.
Qed.

Lemma required_field_in (f : string) :
  f = "id" ∨ f = "dispositivoId" ∨ f = "timestamp" ∨ f = "avaliacaoGeral" →
  f ∈ required_fields.
Proof. intros [->|[->|[->| ->]]]; apply list_elem_of_In; simpl; tauto. Qed.

Lemma well_typed_complete (m : list (string * json)) : well_typed m → complete m.
Proof. intros [H _] f Hf. destruct (H f Hf) as [s ->]. by eexists. Qed.

Lemma well_typed_ballot (i dev ts rating : string) : well_typed (ballot i dev ts rating).
Proof.
  split; [|by left]. intros field Hin. apply list_elem_of_In in Hin.
  destruct Hin as [<-|[<-|[<-|[<-|[]]]]]; by eexists.
Qed.

Lemma id_taken_free (i : string) (rows : list avaliacao) :
  (∀ row, row ∈ rows → av_id row ≠ Some i) → id_taken (Some i) rows = false.
Proof.
  intros Hfree. cbn [id_taken]. apply not_true_is_false.
  intros (row & Hin & Hid)%existsb_exists. apply bool_decide_eq_true in Hid.
  by apply (Hfree row); [apply list_elem_of_In |].
Qed.

(** The two INSERTs on a payload of strings with a fresh id. *)
Lemma save_evaluation_typed e m d i dv ts av :
  dict_get m "id" = Some (JStr i) → dict_get m "dispositivoId" = Some (JStr dv) →
  dict_get m "timestamp" = Some (JStr ts) → dict_get m "avaliacaoGeral" = Some (JStr av) →
  (dict_get m "feedback" = None ∨ ∃ s, dict_get m "feedback" = Some (JStr s)) →
  id_taken (Some i) (avaliacoes d) = false →
  ∃ fb,
    submitted_feedback m = Some fb
    ∧ save_evaluation e (JObj m) (JStr dv) d
      = Return (Store
                  (avaliacoes d
                   ++ [Avaliacao (Some i) dv ts av (Some (dumps (submitted_setores m)))
                         (Some fb) (current_timestamp e)])%list
                  (<[dv := Controle ts (current_timestamp e)
                             (Some (isoformat (get_brazil_time e)))]>
                     (controle_votacao d))
                  (logs_sistema d)).
Proof.
  intros Hid Hdv Hts Hav Hfb Hfree.
  unfold save_evaluation, insert_avaliacao, replace_controle, submitted_feedback,
    submitted_setores.
  unfold mbind, result_bind, bind. cbn [py_getitem py_get].
  rewrite Hid, Hdv, Hts, Hav. cbn [or_raise bind_param text_affinity not_null].
  destruct Hfb as [->|[s ->]]; cbn [from_option bind_param text_affinity];
    rewrite Hfree; by eexists.
Qed.

(** A payload of strings with a fresh id from an eligible device is
    accepted. *)
Lemma submit_well_typed_accepted (e : env) (m : list (string * json)) (w : world)
    (i dv : string) :
  well_typed m →
  dict_get m "id" = Some (JStr i) →
  dict_get m "dispositivoId" = Some (JStr dv) →
  (∀ row, row ∈ avaliacoes (db w) → av_id row ≠ Some i) →
  (has_voted_today e (JStr dv) w).1 = Return false →
  database_ok e = true →
  ∃ w', submit_evaluation e (JObj m) w
        = (Response 200 (Saved "Avaliação salva com sucesso" (JStr i)), w').
Proof.
  intros Hwt Hid Hdv Hfree Hvoted Hok.
  pose proof (well_typed_complete m Hwt) as Hc. destruct Hwt as [Hreq Hfb].
  destruct (Hreq "timestamp") as [ts Hts]; [by apply required_field_in; auto |].
  destruct (Hreq "avaliacaoGeral") as [av Hav]; [by apply required_field_in; auto |].
  destruct (save_evaluation_typed e m (db w) i dv ts av Hid Hdv Hts Hav Hfb
              (id_taken_free _ _ Hfree)) as (fb & _ & Hsave).
  rewrite has_voted_today_eq in Hvoted.
  unfold submit_evaluation, log_action. run_handler.
  rewrite (first_missing_complete m Hc). cbn [py_getitem or_raise]. rewrite Hdv.
  cbn [or_raise]. rewrite has_voted_today_eq.
  destruct (eligibility e (JStr dv) (db w)) as [[]|ex]; [done | |];
    unfold logged; cbn [db logger]; rewrite Hok, Hsave, Hav, Hid;
    cbn [or_raise db logger]; by eexists.
Qed.

(** The three tables after an accepted submission. *)
Lemma submit_accepted_effects (e : env) (data : json) (w w' : world)
    (r : response) :
  submit_evaluation e data w = (r, w') → status r = 200 →
  ∃ m idv devv tsv avv row devk,
    data = JObj m
    ∧ dict_get m "id" = Some idv ∧ stored_text idv = Some (av_id row)
    ∧ dict_get m "dispositivoId" = Some devv ∧ stored_text devv = Some (Some devk)
    ∧ dict_get m "timestamp" = Some tsv
    ∧ stored_text tsv = Some (Some (av_timestamp row))
    ∧ dict_get m "avaliacaoGeral" = Some avv
    ∧ stored_text avv = Some (Some (av_avaliacao_geral row))
    ∧ av_dispositivo_id row = devk
    ∧ av_setores row = Some (dumps (submitted_setores m))
    ∧ avaliacoes (db w') = (avaliacoes (db w) ++ [row])%list
    ∧ controle_votacao (db w')
      = <[devk := Controle (av_timestamp row) (current_timestamp e)
                    (Some (isoformat (get_brazil_time e)))]>
          (controle_votacao (db w))
    ∧ logs_sistema (db w')
      = (logs_sistema (db w)
         ++ [LogSistema (nth_log_id (length (logs_sistema (db w))))
               "AVALIACAO_ENVIADA"
               [Lit "Dispositivo: "; Val devv; Lit ", Avaliação: "; Val avv]
               (isoformat (get_brazil_time e))])%list.
Proof.
  intros Hsub H200.
  destruct (submit_accepted_db _ _ _ _ _ Hsub H200)
    as (m & dev & d1 & idv & avv & -> & Hdev & Hid & Hav & _ & _ & Hsave & _ & Hdb).
  destruct (save_evaluation_inv _ _ _ _ _ Hsave)
    as (m' & idv' & devv & tsv & avv' & idx & devt & tst & avt & fbx
        & [= <-] & Hid' & Hdev' & Hts & Hav' & Hidx & Hdevt & Htst & Havt & _ & _
        & Hrows & Hlogs & devk & Hdevk & Hcv).
  rewrite Hid in Hid'. injection Hid' as <-. rewrite Hdev in Hdev'.
  injection Hdev' as <-. rewrite Hav in Hav'. injection Hav' as <-.
  rewrite Hdevt in Hdevk. injection Hdevk as <-.
  exists m, idv, dev, tsv, avv,
    (Avaliacao (text_affinity idx) devt tst avt (Some (dumps (submitted_setores m)))
       (text_affinity fbx) (current_timestamp e)), devt.
  rewrite Hdb. cbn [insert_log avaliacoes controle_votacao logs_sistema av_id
    av_timestamp av_avaliacao_geral av_dispositivo_id av_setores].
  rewrite Hlogs. unfold stored_text at 1. rewrite Hidx. done.
Qed.

(** After an accepted submission the device's eligibility is decided by
    the submitted timestamp. *)
Lemma has_voted_today_after_accepted (e e' : env) (m : list (string * json))
    (w w' : world) (r : response) (dv t : string) :
  submit_evaluation e (JObj m) w = (r, w') → status r = 200 →
  dict_get m "dispositivoId" = Some (JStr dv) →
  dict_get m "timestamp" = Some (JStr t) →
  database_ok e' = true →
  (has_voted_today e' (JStr dv) w').1
  = Return (written_day_matches (get_brazil_time e') t).
Proof.
  intros Hsub H200 Hdv Ht Hok.
  destruct (submit_accepted_effects _ _ _ _ _ Hsub H200)
    as (m' & idv & devv & tsv & avv & row & devk & [= <-] & _ & _ & Hdv' & Hdevk
        & Ht' & Htst & _ & _ & _ & _ & _ & Hcv & _).
  rewrite Hdv in Hdv'. injection Hdv' as <-. rewrite Ht in Ht'. injection Ht' as <-.
  cbn in Hdevk, Htst. injection Hdevk as <-. injection Htst as Htst.
  destruct (has_voted_today_answer e' dv w') as [-> _].
  rewrite Hcv, lookup_insert_eq. unfold answer. rewrite Hok. cbn [cv_ultimo_voto andb].
  by rewrite <- Htst.
Qed.

Lemma submit_conflict (e : env) (m : list (string * json)) (dev : json) (w : world) :
  complete m → dict_get m "dispositivoId" = Some dev →
  (has_voted_today e dev w).1 = Return true →
  submit_evaluation e (JObj m) w
  = (Response 409 (Failure "Dispositivo já votou hoje"), w).
Proof.
  intros Hc Hdev Hvoted. rewrite has_voted_today_eq in Hvoted.
  unfold submit_evaluation. run_handler.
  rewrite (first_missing_complete m Hc). cbn [py_getitem or_raise]. rewrite Hdev.
  cbn [or_raise]. rewrite has_voted_today_eq.
  destruct (eligibility e dev (db w)) as [[]|ex]; done.
Qed.

Lemma submit_controle_other (e : env) (data : json) (w : world) (b : string) :
  (∀ m dv, data = JObj m → dict_get m "dispositivoId" = Some dv →
           stored_text dv ≠ Some (Some b)) →
  controle_votacao (db (submit_evaluation e data w).2) !! b
  = controle_votacao (db w) !! b.
Proof.
  intros Hother. destruct (submit_evaluation e data w) as [r w'] eqn:Hsub. cbn [snd].
  destruct (submit_outcome _ _ _ _ _ Hsub) as [[_ ->]|[_ Hacc]]; [done |].
  destruct Hacc as (m & dev & d1 & -> & Hdev & _ & _ & Hsave & _ & Hcv).
  destruct (save_evaluation_inv _ _ _ _ _ Hsave)
    as (m' & ? & ? & ? & ? & ? & ? & ? & ? & ? & [= <-] & _ & _ & _ & _ & _ & _ & _
        & _ & _ & _ & _ & _ & devk & Hdevk & Hcv').
  rewrite Hcv, Hcv'. apply lookup_insert_ne. intros ->.
  by apply (Hother m dev).
Qed.

Lemma reset_timer_db (e : env) (w : world) :
  db (reset_timer e w).2
  = if database_ok e
    then insert_log "TIMER_RESETADO" [Lit "Timer de votação resetado manualmente"]
           (isoformat (get_brazil_time e)) (delete_controle (db w))
    else db w.
Proof.
  unfold reset_timer, log_action. run_handler. cbn [db logger].
  by destruct (database_ok e).
Qed.

(** What one served request does to the tables. *)
Lemma serve_step (e : env) (req : request) (w : world) :
  let d := db w in
  let d' := db (serve e req w).2 in
  d' = d
  ∨ (req = ResetTimer
     ∧ d' = insert_log "TIMER_RESETADO" [Lit "Timer de votação resetado manualmente"]
              (isoformat (get_brazil_time e)) (delete_controle d))
  ∨ (∃ data dev avv d1,
       req = SubmitEvaluation data
       ∧ py_getitem data "dispositivoId" = Return dev
       ∧ save_evaluation e data dev d = Return d1
       ∧ d' = insert_log "AVALIACAO_ENVIADA"
                [Lit "Dispositivo: "; Val dev; Lit ", Avaliação: "; Val avv]
                (isoformat (get_brazil_time e)) d1).
Proof.
  cbn zeta. destruct req as [|data|dv| |f]; cbn [serve].
  - left. apply get_evaluations_db.
  - destruct (submit_evaluation e data w) as [r w'] eqn:Hsub. cbn [snd].
    destruct (submit_outcome _ _ _ _ _ Hsub) as [[_ ->]|[H200 _]]; [by left |].
    destruct (submit_accepted_db _ _ _ _ _ Hsub H200)
      as (m & dev & d1 & idv & avv & -> & Hdev & _ & _ & _ & _ & Hsave & _ & ->).
    right. right. exists (JObj m), dev, avv, d1. cbn [py_getitem]. by rewrite Hdev.
  - left. apply check_vote_db.
  - rewrite reset_timer_db. destruct (database_ok e); auto.
  - left. apply get_statistics_db.
Qed.

Lemma save_evaluation_tables e data dev d d1 :
  save_evaluation e data dev d = Return d1 →
  (∃ row, avaliacoes d1 = (avaliacoes d ++ [row])%list) ∧ logs_sistema d1 = logs_sistema d.
Proof.
  intros Hsave. destruct (save_evaluation_inv _ _ _ _ _ Hsave)
    as (? & ? & ? & ? & ? & ? & ? & ? & ? & ? & _ & _ & _ & _ & _ & _ & _ & _ & _ & _
        & _ & Hrows & Hlogs & _).
  split; [by eexists | done].
Qed.

Lemma insert_log_ids a dts ts d :
  ls_id <$> logs_sistema d = nth_log_id <$> seq 0 (length (logs_sistema d)) →
  ls_id <$> logs_sistema (insert_log a dts ts d)
  = nth_log_id <$> seq 0 (length (logs_sistema (insert_log a dts ts d))).
Proof.
  intros IH. cbn [insert_log logs_sistema].
  by rewrite length_app, Nat.add_1_r, seq_S, !fmap_app, IH.
Qed.

Lemma backed_save e data dev d d1 :
  py_getitem data "dispositivoId" = Return dev →
  save_evaluation e data dev d = Return d1 →
  backed d → backed d1.
Proof.
  intros Hdev Hsave Hb.
  destruct (save_evaluation_inv _ _ _ _ _ Hsave)
    as (m & idv & devv & tsv & avv & idx & devt & tst & avt & fbx
        & -> & _ & Hdv & _ & _ & _ & Hdevt & _ & _ & _ & _
        & Hrows & _ & devk & Hdevk & Hcv).
  cbn [py_getitem] in Hdev. rewrite Hdv in Hdev. injection Hdev as ->.
  rewrite Hdevt in Hdevk. injection Hdevk as <-.
  intros k row. rewrite Hcv, Hrows. destruct (decide (devt = k)) as [<-|Hne].
  - rewrite lookup_insert_eq. intros [= <-].
    eexists (avaliacoes d), _, []. by repeat split.
  - rewrite lookup_insert_ne by done. intros Hk.
    destruct (Hb k row Hk) as (l1 & av & l2 & -> & ? & ? & Hl2).
    exists l1, av, (l2 ++ [Avaliacao (text_affinity idx) devt tst avt
                             (Some (dumps (submitted_setores m))) (text_affinity fbx)
                             (current_timestamp e)])%list.
    rewrite <- app_assoc. repeat split; try done.
    apply Forall_app. split; [done |]. by apply Forall_singleton.
Qed.

Lemma backed_insert_log a dts ts d : backed d → backed (insert_log a dts ts d).
Proof. done. Qed.

Lemma reachable_backed (w : world) : reachable w → backed (db w).
Proof.
  induction 1 as [|e req w Hw IH Hreq]; [by intros k row |].
  destruct (serve_step e req w)
    as [->|[[_ ->]|(data & dev & avv & d1 & _ & Hdev & Hsave & ->)]].
  - done.
  - by intros k row.
  - apply backed_insert_log. by apply (backed_save e data dev (db w)).
Qed.


Lemma sum_list_perm (l k : list nat) : l ≡ₚ k → sum_list l = sum_list k.
Proof. induction 1; cbn; lia. Qed.

Lemma count_of_cons (k x : string) (l : list string) :
  count_of k (x :: l) = ((if decide (x = k) then 1 else 0) + count_of k l)%nat.
Proof. unfold count_of. rewrite filter_cons. by destruct (decide (x = k)). Qed.

Lemma sum_indicator (x : string) (ks : list string) :
  NoDup ks → x ∈ ks →
  sum_list ((λ k, if decide (x = k) then 1%nat else 0%nat) <$> ks) = 1%nat.
Proof.
  induction 1 as [|k ks Hk Hnd IH]; [by intros ?%elem_of_nil |].
  intros [<-|Hin]%elem_of_cons; cbn [fmap list_fmap sum_list].
  - rewrite decide_True by done.
    assert (sum_list ((λ k, if decide (x = k) then 1%nat else 0%nat) <$> ks) = 0%nat)
      as ->; [|done].
    clear IH Hnd. induction ks as [|y ks IH]; [done |].
    cbn [fmap list_fmap sum_list]. rewrite decide_False.
    + rewrite IH; [done |]. intros ?. apply Hk. by right.
    + intros ->. apply Hk. by left.
  - rewrite decide_False; [by rewrite IH |]. by intros ->.
Qed.

(** The counts of a GROUP BY add up to the number of rows. *)
Lemma sum_count_of (keys ks : list string) :
  NoDup ks → (∀ x, x ∈ keys → x ∈ ks) →
  sum_list ((λ k, count_of k keys) <$> ks) = length keys.
Proof.
  intros Hnd. induction keys as [|x keys IH]; intros Hsub.
  - clear. induction ks as [|k ks IHks]; [done |].
    cbn [fmap list_fmap sum_list]. by rewrite IHks.
  - assert (sum_list ((λ k, count_of k (x :: keys)) <$> ks)
            = (sum_list ((λ k, if decide (x = k) then 1%nat else 0%nat) <$> ks)
               + sum_list ((λ k, count_of k keys) <$> ks))%nat) as ->.
    { clear. induction ks as [|k ks IHks]; [done |].
      rewrite !fmap_cons. cbn [sum_list]. rewrite count_of_cons, IHks.
      unfold id. destruct (decide (x = k)); lia. }
    rewrite IH by (intros y Hy; apply Hsub; by right).
    rewrite (sum_indicator x ks Hnd) by (apply Hsub; by left). done.
Qed.

Lemma get_statistics_eq (f : string → option string) (e : env) (w : world) :
  database_ok e = true →
  get_statistics f e w
  = (Response 200
       (Statistics
          (StatisticsOf (length (avaliacoes (db w)))
             (select_count_on f (date_isoformat (date_of (get_brazil_time e))) (db w))
             (list_to_map (select_group_count (db w)))
             (select_count_feedback (db w))
             (isoformat (get_brazil_time e)))), w).
Proof. intros Hok. unfold get_statistics. run_handler. by rewrite Hok. Qed.

Lemma ratings_accepted (e : env) (m : list (string * json)) (w w' : world)
    (r : response) (avv : json) (rating : string) :
  submit_evaluation e (JObj m) w = (r, w') → status r = 200 →
  dict_get m "avaliacaoGeral" = Some avv → stored_text avv = Some (Some rating) →
  ratings (db w') = (ratings (db w) ++ [rating])%list.
Proof.
  intros Hsub H200 Hav Hrating.
  destruct (submit_accepted_effects _ _ _ _ _ Hsub H200)
    as (m' & idv & devv & tsv & avv' & row & devk & [= <-] & _ & _ & _ & _ & _ & _
        & Hav' & Hrow & _ & _ & Hrows & _).
  rewrite Hav in Hav'. injection Hav' as <-. rewrite Hrating in Hrow.
  injection Hrow as Hrow. unfold ratings. by rewrite Hrows, fmap_app, Hrow.
Qed.

Lemma first_missing_at (m : list (string * json)) (pre post : list string) (f : string) :
  (∀ g, g ∈ pre → is_Some (dict_get m g)) → dict_get m f = None →
  first_missing (JObj m) (pre ++ f :: post) = Return (Some f).
Proof.
  intros Hpre Hf. induction pre as [|g pre IH]; cbn [app first_missing py_contains];
    cbn [mbind result_bind bind].
  - rewrite bool_decide_eq_false_2; [done |]. rewrite Hf. by intros [? ?].
  - rewrite bool_decide_eq_true_2 by (apply Hpre; by left).
    apply IH. intros g' Hg'. apply Hpre. by right.
Qed.

(** The morning's three submissions are served requests. *)
Lemma three_evaluations_reachable : reachable three_evaluations.
Proof.
  apply (reachable_serve late_morning (SubmitEvaluation (kiosk "c" "regular" [])));
    [|by vm_compute].
  apply (reachable_serve late_morning
           (SubmitEvaluation (kiosk "b" "otimo" [("feedback", JStr "muito bom")])));
    [|by vm_compute].
  apply (reachable_serve late_morning (SubmitEvaluation (kiosk "a" "otimo" [])));
    [|by vm_compute].
  apply reachable_initial.
Qed.

Lemma three_evaluations_ids (row : avaliacao) :
  row ∈ avaliacoes (db three_evaluations) →
  av_id row = Some "id-a" ∨ av_id row = Some "id-b" ∨ av_id row = Some "id-c".
Proof.
  intros Hin. apply list_elem_of_In in Hin. vm_compute in Hin.
  destruct Hin as [<-|[<-|[<-|[]]]]; auto.
Qed.

End CoverageFacts.

Import Derived CoverageFacts.

(** ** Submission: what is accepted and what it writes *)

(** X1.  A payload whose required fields are strings (and whose feedback,
    if any, is a string), with an id no stored evaluation bears, from a
    device for which [has_voted_today] answers false, on a usable database,
    is accepted: 200, the message of success and the submitted id. *)
Theorem submit_accepts (e : env) (m : list (string * json)) (w : world)
    (i dv : string) :
  well_typed m →
  dict_get m "id" = Some (JStr i) →
  dict_get m "dispositivoId" = Some (JStr dv) →
  (∀ row, row ∈ avaliacoes (db w) → av_id row ≠ Some i) →
  (has_voted_today e (JStr dv) w).1 = Return false →
  database_ok e = true →
  ∃ w', submit_evaluation e (JObj m) w
        = (Response 200 (Saved "Avaliação salva com sucesso" (JStr i)), w').
Proof. apply submit_well_typed_accepted. Qed.

Lemma submit_accepts_witness :
  ∃ w', submit_evaluation late_morning
          (JObj (ballot "id-d" "d" "2024-03-05T14:05:00.000Z" "bom")) three_evaluations
        = (Response 200 (Saved "Avaliação salva com sucesso" (JStr "id-d")), w').
Proof.
  apply (submit_accepts late_morning _ three_evaluations "id-d" "d").
  - apply well_typed_ballot.
  - reflexivity.
  - reflexivity.
  - intros row Hin. by destruct (three_evaluations_ids row Hin) as [->|[->| ->]].
  - by vm_compute.
  - reflexivity.
Defined.



(** X3.  Whatever the payload, a submission is answered 200, 400, 409 or
    500, and every answer other than 200 leaves the three tables exactly as
    they were. *)
Theorem rejected_submission_writes_nothing (e : env) (data : json) (w : world) :
  let r := (submit_evaluation e data w).1 in
  let w' := (submit_evaluation e data w).2 in
  status r = 200
  ∨ ((status r = 400 ∨ status r = 409 ∨ status r = 500) ∧ db w' = db w).
Proof.
  cbn zeta. destruct (submit_evaluation e data w) as [r w'] eqn:Hsub. cbn [fst snd].
  destruct (submit_outcome _ _ _ _ _ Hsub) as [[Hne Hdb]|[H200 _]]; [|by left].
  right. split; [|done]. revert Hsub Hne.
  unfold submit_evaluation, log_action. run_handler.
  destruct (first_missing data required_fields) as [[f|]|ex];
    [intros [= <- <-]; auto | | intros [= <- <-]; auto].
  destruct (py_getitem data "dispositivoId") as [dev|ex];
    [|intros [= <- <-]; auto].
  destruct (has_voted_today e dev w) as [[[]|ex] w1];
    [intros [= <- <-]; auto | | intros [= <- <-]; auto].
  destruct (database_ok e); [|intros [= <- <-]; auto].
  destruct (save_evaluation e data dev (db w1)) as [d1|ex];
    [|intros [= <- <-]; auto].
  destruct (py_getitem data "avaliacaoGeral"); [|intros [= <- <-]; auto].
  destruct (py_getitem data "id"); [|intros [= <- <-]; auto].
  by intros [= <- <-].
Qed.



(** X5.  Presence is all the validation asks: a complete payload whose
    [dispositivoId], [timestamp] or [avaliacaoGeral] is [null] passes it,
    and, the device being eligible, fails on the NOT NULL column instead:
    500, no table changed. *)
Theorem submit_null_field_rejected (e : env) (m : list (string * json)) (w : world)
    (field : string) :
  complete m →
  field = "dispositivoId" ∨ field = "timestamp" ∨ field = "avaliacaoGeral" →
  dict_get m field = Some JNull →
  (∀ dev, dict_get m "dispositivoId" = Some dev →
          (has_voted_today e dev w).1 = Return false) →
  ∃ ex w',
    submit_evaluation e (JObj m) w = (Response 500 (Crashed ex), w')
    ∧ db w' = db w.
Proof.
  intros Hc Hfield Hnull Hnot.
  destruct (submit_evaluation e (JObj m) w) as [r w'] eqn:Hsub.
  destruct (submit_outcome _ _ _ _ _ Hsub) as [[Hne Hdb]|[_ Hacc]].
  - revert Hsub Hne. unfold submit_evaluation, log_action. run_handler.
    rewrite (first_missing_complete m Hc). cbn [py_getitem].
    destruct (Hc "dispositivoId") as [dev Hdev]; [by apply required_field_in; auto |].
    rewrite Hdev. cbn [or_raise]. specialize (Hnot dev Hdev).
    destruct (has_voted_today e dev w) as [[[]|ex] w1]; try done.
    destruct (database_ok e); [|intros [= <- <-]; by eexists _, _].
    destruct (save_evaluation e (JObj m) dev (db w1)) as [d1|ex];
      [|intros [= <- <-]; by eexists _, _].
    destruct (dict_get m "avaliacaoGeral"); [|intros [= <- <-]; by eexists _, _].
    destruct (dict_get m "id"); [|intros [= <- <-]; by eexists _, _].
    by intros [= <- <-].
  - exfalso.
    destruct Hacc as (m' & dev & d1 & [= <-] & _ & _ & _ & Hsave & _).
    destruct (save_evaluation_inv _ _ _ _ _ Hsave)
      as (m' & idv & devv & tsv & avv & idx & devt & tst & avt & fbx
          & [= <-] & _ & Hdev & Hts & Hav & _ & Hdevt & Htst & Havt & _).
    destruct Hfield as [->|[->| ->]].
    + rewrite Hnull in Hdev. injection Hdev as <-. done.
    + rewrite Hnull in Hts. injection Hts as <-. done.
    + rewrite Hnull in Hav. injection Hav as <-. done.
Qed.

Lemma submit_null_field_rejected_witness :
  ∃ ex w',
    submit_evaluation late_morning
      (JObj [("id", JStr "id-n"); ("dispositivoId", JStr "n");
             ("timestamp", JNull); ("avaliacaoGeral", JStr "bom")])
      three_evaluations
    = (Response 500 (Crashed ex), w')
    ∧ db w' = db three_evaluations.
Proof.
  apply (submit_null_field_rejected late_morning _ three_evaluations "timestamp").
  - intros field Hin. apply list_elem_of_In in Hin.
    destruct Hin as [<-|[<-|[<-|[<-|[]]]]]; by eexists.
  - right. by left.
  - reflexivity.
  - intros dev [= <-]. by vm_compute.
Defined.

(** X6.  The validation reports the first required field that is absent,
    in the order [id], [dispositivoId], [timestamp], [avaliacaoGeral]: when
    every field before [field] is present and [field] is not, the answer is
    400 naming [field], and the world is unchanged. *)
Theorem first_missing_field_reported (e : env) (m : list (string * json)) (w : world)
    (pre post : list string) (field : string) :
  required_fields = (pre ++ field :: post)%list →
  (∀ g, g ∈ pre → is_Some (dict_get m g)) →
  dict_get m field = None →
  submit_evaluation e (JObj m) w
  = (Response 400 (Failure ("Campo obrigatório ausente: " +:+ field)), w).
Proof.
  intros Hreq Hpre Hf. unfold submit_evaluation. run_handler.
  by rewrite Hreq, (first_missing_at m pre post field Hpre Hf).
Qed.

Lemma first_missing_field_reported_witness :
  submit_evaluation late_morning (JObj [("id", JStr "id-e"); ("feedback", JStr "oi")])
    three_evaluations
  = (Response 400 (Failure "Campo obrigatório ausente: dispositivoId"),
     three_evaluations).
Proof.
  apply (first_missing_field_reported late_morning _ three_evaluations
           ["id"] ["timestamp"; "avaliacaoGeral"] "dispositivoId").
  - reflexivity.
  - intros g Hg. apply list_elem_of_In in Hg. destruct Hg as [<-|[]]. by eexists.
  - reflexivity.
Defined.

(** ** Eligibility after a submission *)



(** X8.  One vote a day: once a submission is accepted, a later complete
    submission from the same device is refused with 409 and writes nothing,
    as long as the server's date is the date written in the accepted
    timestamp. *)
Theorem second_submission_same_day_conflict (e e' : env) (m m' : list (string * json))
    (w w' : world) (r : response) (dv t : string) :
  submit_evaluation e (JObj m) w = (r, w') → status r = 200 →
  dict_get m "dispositivoId" = Some (JStr dv) →
  dict_get m "timestamp" = Some (JStr t) →
  complete m' → dict_get m' "dispositivoId" = Some (JStr dv) →
  database_ok e' = true →
  written_day_matches (get_brazil_time e') t = true →
  submit_evaluation e' (JObj m') w'
  = (Response 409 (Failure "Dispositivo já votou hoje"), w').
Proof.
  intros Hsub H200 Hdv Ht Hc Hdv' Hok Hday.
  apply (submit_conflict e' m' (JStr dv)); [done | done |].
  by rewrite (has_voted_today_after_accepted e e' m w w' r dv t), Hday.
Qed.

Lemma second_submission_same_day_conflict_witness :
  let w' := (submit_evaluation late_morning
               (JObj (ballot "id-d" "d" "2024-03-05T14:05:00.000Z" "bom"))
               three_evaluations).2 in
  submit_evaluation late_morning
    (JObj (ballot "id-d2" "d" "2024-03-05T14:06:00.000Z" "otimo")) w'
  = (Response 409 (Failure "Dispositivo já votou hoje"), w').
Proof.
  intros w'.
  apply (second_submission_same_day_conflict late_morning late_morning
           (ballot "id-d" "d" "2024-03-05T14:05:00.000Z" "bom")
           (ballot "id-d2" "d" "2024-03-05T14:06:00.000Z" "otimo")
           three_evaluations w'
           (submit_evaluation late_morning
              (JObj (ballot "id-d" "d" "2024-03-05T14:05:00.000Z" "bom"))
              three_evaluations).1 "d" "2024-03-05T14:05:00.000Z").
  - apply surjective_pairing.
  - by vm_compute.
  - reflexivity.
  - reflexivity.
  - apply well_typed_complete, well_typed_ballot.
  - reflexivity.
  - reflexivity.
  - by vm_compute.
Defined.

(** X9.  A submission, accepted or not, changes the eligibility of no
    other device: for every device whose key is not the stored text of the
    payload's [dispositivoId], [has_voted_today] answers after it what it
    answered before. *)
Theorem other_devices_keep_eligibility (e e' : env) (data : json) (w : world)
    (b : string) :
  (∀ m dv, data = JObj m → dict_get m "dispositivoId" = Some dv →
           stored_text dv ≠ Some (Some b)) →
  (has_voted_today e' (JStr b) (submit_evaluation e data w).2).1
  = (has_voted_today e' (JStr b) w).1.
Proof.
  intros Hother.
  destruct (has_voted_today_answer e' b (submit_evaluation e data w).2) as [-> _].
  destruct (has_voted_today_answer e' b w) as [-> _].
  by rewrite submit_controle_other.
Qed.

Lemma other_devices_keep_eligibility_witness :
  (has_voted_today late_morning (JStr "b")
     (submit_evaluation late_morning
        (JObj (ballot "id-d" "d" "2024-03-05T14:05:00.000Z" "bom"))
        three_evaluations).2).1
  = (has_voted_today late_morning (JStr "b") three_evaluations).1.
Proof.
  apply (other_devices_keep_eligibility late_morning late_morning
           (JObj (ballot "id-d" "d" "2024-03-05T14:05:00.000Z" "bom"))
           three_evaluations "b").
  intros m dv [= <-] [= <-]. by vm_compute.
Defined.

(** X10.  After a reset every device may vote again: on usable databases,
    a payload of strings with a fresh id is accepted right after
    [reset_timer], whatever the vote-control table held before. *)
Theorem reset_then_vote_again (e e' : env) (m : list (string * json)) (w : world)
    (i dv : string) :
  database_ok e = true → database_ok e' = true →
  well_typed m →
  dict_get m "id" = Some (JStr i) →
  dict_get m "dispositivoId" = Some (JStr dv) →
  (∀ row, row ∈ avaliacoes (db w) → av_id row ≠ Some i) →
  ∃ w', submit_evaluation e' (JObj m) (reset_timer e w).2
        = (Response 200 (Saved "Avaliação salva com sucesso" (JStr i)), w').
Proof.
  intros Hok Hok' Hwt Hid Hdv Hfree.
  apply (submit_well_typed_accepted e' m _ i dv); try done.
  - by rewrite reset_timer_avaliacoes.
  - destruct (has_voted_today_answer e' dv (reset_timer e w).2) as [-> _].
    rewrite reset_timer_db, Hok. cbn [insert_log delete_controle controle_votacao].
    rewrite lookup_empty. unfold answer. by rewrite andb_false_r.
Qed.

Lemma reset_then_vote_again_witness :
  (has_voted_today late_morning (JStr "a") three_evaluations).1 = Return true
  ∧ ∃ w', submit_evaluation late_morning
            (JObj (ballot "id-a2" "a" "2024-03-05T14:10:00.000Z" "ruim"))
            (reset_timer late_morning three_evaluations).2
          = (Response 200 (Saved "Avaliação salva com sucesso" (JStr "id-a2")), w').
Proof.
  split; [by vm_compute |].
  apply (reset_then_vote_again late_morning late_morning _ three_evaluations
           "id-a2" "a").
  - reflexivity.
  - reflexivity.
  - apply well_typed_ballot.
  - reflexivity.
  - reflexivity.
  - intros row Hin. by destruct (three_evaluations_ids row Hin) as [->|[->| ->]].
Defined.

(** ** The other routes *)

(** X11.  [check_vote] never answers 500 and never writes: whatever the
    state of the database it answers 200 with the device it was asked
    about, the answer of [has_voted_today] for it and the server's time. *)
Theorem check_vote_never_fails (e : env) (dispositivo_id : string) (w : world) :
  ∃ voted w',
    (has_voted_today e (JStr dispositivo_id) w).1 = Return voted
    ∧ check_vote e dispositivo_id w
      = (Response 200
           (CheckVote dispositivo_id voted (isoformat (get_brazil_time e))), w')
    ∧ db w' = db w.
Proof.
  destruct (has_voted_today_total e (JStr dispositivo_id) w) as (b & w1 & Hv & Hdb).
  exists b, w1. unfold check_vote. run_handler. by rewrite Hv.
Qed.

(** X12.  The two reading routes write nothing: after [get_evaluations]
    and after [get_statistics], whatever they answered, the three tables are
    what they were. *)
Theorem reading_routes_write_nothing (sqlite_date : string → option string) (e : env)
    (w : world) :
  db (get_evaluations e w).2 = db w
  ∧ db (get_statistics sqlite_date e w).2 = db w.
Proof. split; [apply get_evaluations_db | apply get_statistics_db]. Qed.

(** X13.  When the database cannot be opened, the list, the statistics and
    the reset answer 500 with the driver's error, logged once, and change no
    table; [check_vote] still answers 200, with [hasVotedToday] false; a
    complete submission passes the eligibility check (which swallowed the
    error) and fails at the insert: 500, nothing written. *)
Theorem database_unavailable (sqlite_date : string → option string) (e : env)
    (w : world) (dispositivo_id : string) (m : list (string * json)) :
  database_ok e = false →
  let failed label :=
    (Response 500 (Crashed OperationalError),
     World (db w) (logger w ++ [LogRecord ERROR [Lit label; Exc OperationalError]])) in
  get_evaluations e w = failed "Erro ao obter avaliações: "
  ∧ get_statistics sqlite_date e w = failed "Erro ao obter estatísticas: "
  ∧ reset_timer e w = failed "Erro ao resetar timer: "
  ∧ (check_vote e dispositivo_id w).1
    = Response 200 (CheckVote dispositivo_id false (isoformat (get_brazil_time e)))
  ∧ (complete m →
     (submit_evaluation e (JObj m) w).1 = Response 500 (Crashed OperationalError)
     ∧ db (submit_evaluation e (JObj m) w).2 = db w).
Proof.
  intros Hok. cbn zeta.
  split; [unfold get_evaluations; run_handler; by rewrite Hok |].
  split; [unfold get_statistics; run_handler; by rewrite Hok |].
  split; [unfold reset_timer; run_handler; by rewrite Hok |].
  split.
  - unfold check_vote. run_handler. rewrite has_voted_today_eq.
    unfold eligibility. by rewrite Hok.
  - intros Hc. unfold submit_evaluation. run_handler.
    rewrite (first_missing_complete m Hc). cbn [py_getitem].
    destruct (Hc "dispositivoId") as [dev ->]; [by apply required_field_in; auto |].
    cbn [or_raise]. rewrite has_voted_today_eq. unfold eligibility. by rewrite Hok.
Qed.

Lemma database_unavailable_witness :
  let failed label :=
    (Response 500 (Crashed OperationalError),
     World (db three_evaluations)
       (logger three_evaluations
        ++ [LogRecord ERROR [Lit label; Exc OperationalError]])) in
  let m := ballot "id-d" "d" "2024-03-05T14:05:00.000Z" "bom" in
  get_evaluations outage three_evaluations = failed "Erro ao obter avaliações: "
  ∧ get_statistics (λ _, None) outage three_evaluations
    = failed "Erro ao obter estatísticas: "
  ∧ reset_timer outage three_evaluations = failed "Erro ao resetar timer: "
  ∧ (check_vote outage "a" three_evaluations).1
    = Response 200 (CheckVote "a" false (isoformat (get_brazil_time outage)))
  ∧ (complete m →
     (submit_evaluation outage (JObj m) three_evaluations).1
     = Response 500 (Crashed OperationalError)
     ∧ db (submit_evaluation outage (JObj m) three_evaluations).2
       = db three_evaluations).
Proof.
  apply (database_unavailable (λ _, None) outage three_evaluations "a"
           (ballot "id-d" "d" "2024-03-05T14:05:00.000Z" "bom")).
  reflexivity.
Defined.

(** X14.  [log_action] never raises.  On a usable database it appends one
    row to [logs_sistema], stamped with the server's time, and calls the
    logger not at all; otherwise it leaves the tables alone and reports the
    driver's error to the logger. *)
Theorem log_action_never_raises (e : env) (acao : string) (detalhes : list piece)
    (w : world) :
  log_action e acao detalhes w
  = (Return (),
     if database_ok e
     then World (insert_log acao detalhes (isoformat (get_brazil_time e)) (db w)) (logger w)
     else World (db w)
            (logger w
             ++ [LogRecord ERROR [Lit "Erro ao registrar log: "; Exc OperationalError]])).
Proof. unfold log_action. run_handler. by destruct (database_ok e). Qed.

(** ** Invariants of the tables *)

(** X15.  History only grows: whatever the request and its answer, the
    evaluations and the log rows present before it are still there after
    it, unchanged and in the same places. *)
Theorem history_append_only (e : env) (req : request) (w : world) :
  avaliacoes (db w) `prefix_of` avaliacoes (db (serve e req w).2)
  ∧ logs_sistema (db w) `prefix_of` logs_sistema (db (serve e req w).2).
Proof.
  destruct (serve_step e req w)
    as [->|[[_ ->]|(data & dev & avv & d1 & _ & _ & Hsave & ->)]].
  - done.
  - cbn [insert_log delete_controle avaliacoes logs_sistema].
    split; [done | by apply prefix_app_r].
  - destruct (save_evaluation_tables _ _ _ _ _ Hsave) as [[row Hrows] Hlogs].
    cbn [insert_log avaliacoes logs_sistema]. rewrite Hrows, Hlogs.
    split; by apply prefix_app_r.
Qed.

(** X16.  On every store the service reaches, the keys of [logs_sistema]
    are 1, 2, 3, ... in the order of insertion. *)
Theorem log_ids_consecutive (w : world) :
  reachable w →
  ls_id <$> logs_sistema (db w) = nth_log_id <$> seq 0 (length (logs_sistema (db w))).
Proof.
  induction 1 as [|e req w Hw IH Hreq]; [done |].
  destruct (serve_step e req w)
    as [->|[[_ ->]|(data & dev & avv & d1 & _ & _ & Hsave & ->)]].
  - done.
  - by apply insert_log_ids.
  - apply insert_log_ids.
    destruct (save_evaluation_tables _ _ _ _ _ Hsave) as [_ Hlogs]. by rewrite Hlogs.
Qed.

Lemma log_ids_consecutive_witness :
  ls_id <$> logs_sistema (db three_evaluations)
  = nth_log_id <$> seq 0 (length (logs_sistema (db three_evaluations))).
Proof. apply log_ids_consecutive, three_evaluations_reachable. Defined.

(** X17.  On every store the service reaches, a vote-control row is backed
    by an evaluation: the device has stored evaluations, and the row holds
    the timestamp of the last one stored for it. *)
Theorem vote_control_backed_by_last_evaluation (w : world) (k : string) (row : controle) :
  reachable w →
  controle_votacao (db w) !! k = Some row →
  ∃ l1 av l2,
    avaliacoes (db w) = (l1 ++ av :: l2)%list
    ∧ av_dispositivo_id av = k
    ∧ av_timestamp av = cv_ultimo_voto row
    ∧ Forall (λ x, av_dispositivo_id x ≠ k) l2.
Proof. intros Hw. apply (reachable_backed w Hw). Qed.

Lemma vote_control_backed_by_last_evaluation_witness :
  ∃ l1 av l2,
    avaliacoes (db three_evaluations) = (l1 ++ av :: l2)%list
    ∧ av_dispositivo_id av = "a"
    ∧ av_timestamp av = "2024-03-05T14:00:00.000Z"
    ∧ Forall (λ x, av_dispositivo_id x ≠ "a") l2.
Proof.
  apply (vote_control_backed_by_last_evaluation three_evaluations "a"
           (Controle "2024-03-05T14:00:00.000Z" "2024-03-05 14:00:00"
              (Some "2024-03-05T11:00:00-03:00"))).
  - apply three_evaluations_reachable.
  - by vm_compute.
Defined.



(** X19.  On every store the service reaches, an id identifies one
    evaluation: two rows of [avaliacoes] with the same (non-NULL) id are the
    same row. *)
Theorem stored_ids_unique (w : world) (i j : nat) (a b : avaliacao) (k : string) :
  reachable w →
  avaliacoes (db w) !! i = Some a → avaliacoes (db w) !! j = Some b →
  av_id a = Some k → av_id b = Some k → i = j.
Proof.
  intros Hw Ha Hb Hka Hkb. destruct (reachable_invariant w Hw) as [_ Hids].
  unfold ids_unique in Hids. revert i j Ha Hb.
  induction (avaliacoes (db w)) as [|x l IH]; intros i j Ha Hb; [done |].
  assert (∀ n y, l !! n = Some y → av_id y = Some k → av_id x ≠ Some k) as Hhead.
  { intros n y Hn Hy Hx. cbn [omap list_omap] in Hids. rewrite Hx in Hids.
    apply NoDup_cons in Hids as [Hnot _]. apply Hnot.
    apply list_elem_of_omap. exists y. split; [|done]. by eapply list_elem_of_lookup_2. }
  assert (NoDup (omap av_id l)) as Hl.
  { cbn [omap list_omap] in Hids. destruct (av_id x); [|done].
    by apply NoDup_cons in Hids as [_ ?]. }
  destruct i as [|i], j as [|j]; cbn in Ha, Hb.
  - done.
  - injection Ha as ->. by destruct (Hhead j b Hb Hkb).
  - injection Hb as ->. by destruct (Hhead i a Ha Hka).
  - f_equal. by apply IH.
Qed.

Lemma stored_ids_unique_witness :
  avaliacoes (db three_evaluations) !! 0%nat = Some row_a
  ∧ av_id row_a = Some "id-a"
  ∧ 0%nat = 0%nat.
Proof.
  assert (avaliacoes (db three_evaluations) !! 0%nat = Some row_a) as Hrow
    by (by vm_compute).
  split; [done |]. split; [done |].
  apply (stored_ids_unique three_evaluations 0 0 row_a row_a "id-a").
  - apply three_evaluations_reachable.
  - done.
  - done.
  - reflexivity.
  - reflexivity.
Defined.

(** ** Listing and statistics *)

(** X20.  On a store the service has reached, an accepted submission is
    listed afterwards with the texts SQLite stores for its id, device,
    timestamp and rating; a [null] feedback is listed as the empty string
    and an integer feedback as its decimal text. *)
Theorem accepted_submission_listed_fields (e e' : env) (m : list (string * json))
    (w w' : world) (r : response) :
  wf (JObj m) = true →
  reachable w →
  database_ok e' = true →
  submit_evaluation e (JObj m) w = (r, w') →
  status r = 200 →
  ∃ evs ev idv devv tsv avv,
    get_evaluations e' w' = (Response 200 (Evaluations evs (length evs)), w')
    ∧ ev ∈ evs
    ∧ dict_get m "id" = Some idv ∧ stored_text idv = Some (ev_id ev)
    ∧ dict_get m "dispositivoId" = Some devv
    ∧ stored_text devv = Some (Some (ev_dispositivoId ev))
    ∧ dict_get m "timestamp" = Some tsv
    ∧ stored_text tsv = Some (Some (ev_timestamp ev))
    ∧ dict_get m "avaliacaoGeral" = Some avv
    ∧ stored_text avv = Some (Some (ev_avaliacaoGeral ev))
    ∧ (dict_get m "feedback" = Some JNull → ev_feedback ev = "")
    ∧ (∀ n, dict_get m "feedback" = Some (JInt n) → ev_feedback ev = of_Z n).
Proof.
  intros Hwf Hreach Hok' Hsubmit H200.
  destruct (reachable_invariant w Hreach) as [Hload _].
  destruct (submit_outcome _ _ _ _ _ Hsubmit) as [[Hne _]|[_ Hacc]]; [done |].
  destruct Hacc as (m' & dev & d1 & [= <-] & Hdev & Hvoted & Hok & Hsave & Hav & Hcv).
  destruct (save_evaluation_inv _ _ _ _ _ Hsave)
    as (m' & idv & devv & tsv & avv & idx & devt & tst & avt & fbx
        & [= <-] & Hid & Hdv & Hts & Havv & Hidx & Hdevt & Htst & Havt & Hfbx & _
        & Hrows & _).
  rewrite <- Hav in Hrows.
  set (ev := Evaluation (text_affinity idx) devt tst avt (submitted_setores m)
               (from_option id "" (text_affinity fbx))).
  pose proof (row_to_evaluation_dumped (text_affinity idx) devt tst avt
                (submitted_setores m) (text_affinity fbx) (current_timestamp e)
                (submitted_setores_wf m Hwf)) as Hrow.
  pose proof (loadable_snoc _ _ _ _ Hrows Hload Hrow) as Hload'.
  destruct (get_evaluations_ok e' w' Hok' Hload') as (evs & Hget & HF).
  assert (ev ∈ evs) as Hin.
  { assert (Avaliacao (text_affinity idx) devt tst avt
              (Some (dumps (submitted_setores m))) (text_affinity fbx)
              (current_timestamp e) ∈ select_avaliacoes_desc (db w')) as Hrin.
    { unfold select_avaliacoes_desc. rewrite merge_sort_Permutation, Hrows.
      apply elem_of_app. right. by left. }
    apply list_elem_of_lookup in Hrin as [i Hi].
    destruct (Forall2_lookup_l _ _ _ _ _ HF Hi) as (ev' & Hev' & Hrow').
    rewrite Hrow in Hrow'. injection Hrow' as <-.
    by apply list_elem_of_lookup_2 in Hev'. }
  exists evs, ev, idv, devv, tsv, avv.
  split; [done |]. split; [done |]. split; [done |].
  split; [unfold stored_text; by rewrite Hidx |].
  split; [done |]. split; [done |]. split; [done |]. split; [done |].
  split; [done |]. split; [done |]. cbn [ev_feedback ev]. split.
  - intros Hnull. rewrite Hnull in Hfbx. cbn in Hfbx. by injection Hfbx as <-.
  - intros n Hn. rewrite Hn in Hfbx. cbn in Hfbx.
    destruct (_ && _) in Hfbx; [|done]. by injection Hfbx as <-.
Qed.

Lemma accepted_submission_listed_fields_witness :
  let m := [("id", JInt 42); ("dispositivoId", JStr "totem-5");
            ("timestamp", JStr "2024-03-05T14:00:00.000Z");
            ("avaliacaoGeral", JStr "otimo"); ("feedback", JNull)] in
  let w' := (submit_evaluation late_morning (JObj m) three_evaluations).2 in
  ∃ evs ev idv devv tsv avv,
    get_evaluations late_morning w' = (Response 200 (Evaluations evs (length evs)), w')
    ∧ ev ∈ evs
    ∧ dict_get m "id" = Some idv ∧ stored_text idv = Some (ev_id ev)
    ∧ dict_get m "dispositivoId" = Some devv
    ∧ stored_text devv = Some (Some (ev_dispositivoId ev))
    ∧ dict_get m "timestamp" = Some tsv
    ∧ stored_text tsv = Some (Some (ev_timestamp ev))
    ∧ dict_get m "avaliacaoGeral" = Some avv
    ∧ stored_text avv = Some (Some (ev_avaliacaoGeral ev))
    ∧ (dict_get m "feedback" = Some JNull → ev_feedback ev = "")
    ∧ (∀ n, dict_get m "feedback" = Some (JInt n) → ev_feedback ev = of_Z n).
Proof.
  intros m w'.
  apply (accepted_submission_listed_fields late_morning late_morning m
           three_evaluations w'
           (submit_evaluation late_morning (JObj m) three_evaluations).1).
  - by vm_compute.
  - apply three_evaluations_reachable.
  - reflexivity.
  - apply surjective_pairing.
  - by vm_compute.
Defined.

(** X21.  The figures of one statistics answer agree with each other: the
    counts of [distribuicao] add up to [totalAvaliacoes]; neither
    [totalFeedbacks] nor [avaliacoesHoje] exceeds it; the timestamp is the
    server's time. *)
Theorem statistics_totals_consistent (sqlite_date : string → option string) (e : env)
    (w : world) :
  database_ok e = true →
  ∃ s,
    get_statistics sqlite_date e w = (Response 200 (Statistics s), w)
    ∧ sum_list (snd <$> map_to_list (distribuicao s)) = totalAvaliacoes s
    ∧ (totalFeedbacks s ≤ totalAvaliacoes s)%nat
    ∧ (avaliacoesHoje s ≤ totalAvaliacoes s)%nat
    ∧ st_timestamp s = isoformat (get_brazil_time e).
Proof.
  intros Hok. rewrite (get_statistics_eq _ _ _ Hok). eexists. split; [done |].
  cbn [distribuicao totalAvaliacoes totalFeedbacks avaliacoesHoje st_timestamp].
  split; [|split; [apply length_filter | split; [apply length_filter | done]]].
  unfold select_group_count.
  rewrite (sum_list_perm _ (snd <$> ((λ k, (k, count_of k (av_avaliacao_geral <$> avaliacoes (db w))))
                                      <$> remove_dups (av_avaliacao_geral <$> avaliacoes (db w))))).
  - rewrite <- list_fmap_compose.
    rewrite <- (length_fmap av_avaliacao_geral (avaliacoes (db w))).
    apply (sum_count_of (av_avaliacao_geral <$> avaliacoes (db w))).
    + apply NoDup_remove_dups.
    + intros x. by rewrite elem_of_remove_dups.
  - apply fmap_Permutation, map_to_list_to_map.
    rewrite <- list_fmap_compose. cbn. rewrite list_fmap_id. apply NoDup_remove_dups.
Qed.

Lemma statistics_totals_consistent_witness :
  ∃ s,
    get_statistics (λ t, Some (substring 0 10 t)) late_morning three_evaluations
    = (Response 200 (Statistics s), three_evaluations)
    ∧ sum_list (snd <$> map_to_list (distribuicao s)) = totalAvaliacoes s
    ∧ (totalFeedbacks s ≤ totalAvaliacoes s)%nat
    ∧ (avaliacoesHoje s ≤ totalAvaliacoes s)%nat
    ∧ st_timestamp s = isoformat (get_brazil_time late_morning).
Proof. apply statistics_totals_consistent. reflexivity. Defined.

(** X22.  An accepted submission shows in the statistics as one more
    evaluation and one more of its rating, and changes the count of no
    other rating. *)
Theorem accepted_submission_counted (sqlite_date : string → option string)
    (e e' : env) (m : list (string * json)) (w w' : world) (r : response)
    (avv : json) (rating : string) :
  submit_evaluation e (JObj m) w = (r, w') → status r = 200 →
  dict_get m "avaliacaoGeral" = Some avv → stored_text avv = Some (Some rating) →
  database_ok e' = true →
  ∃ s s',
    (get_statistics sqlite_date e' w).1 = Response 200 (Statistics s)
    ∧ (get_statistics sqlite_date e' w').1 = Response 200 (Statistics s')
    ∧ totalAvaliacoes s' = S (totalAvaliacoes s)
    ∧ distribuicao s' !! rating = Some (S (default 0%nat (distribuicao s !! rating)))
    ∧ (∀ v, v ≠ rating → distribuicao s' !! v = distribuicao s !! v).
Proof.
  intros Hsub H200 Hav Hrating Hok.
  pose proof (ratings_accepted _ _ _ _ _ _ _ Hsub H200 Hav Hrating) as Hr.
  rewrite !(get_statistics_eq _ _ _ Hok). eexists _, _. split; [done |].
  split; [done |]. cbn [totalAvaliacoes distribuicao].
  split; [|split].
  - rewrite <- !(length_fmap av_avaliacao_geral). fold (ratings (db w')).
    fold (ratings (db w)). rewrite Hr, length_app. cbn. lia.
  - rewrite !distribuicao_lookup, Hr, count_occ_app. cbn [count_occ].
    destruct (string_dec rating rating); [|done].
    destruct (count_occ string_dec (ratings (db w)) rating); cbn; f_equal; lia.
  - intros v Hv. rewrite !distribuicao_lookup, Hr, count_occ_app. cbn [count_occ].
    destruct (string_dec rating v); [by subst |]. by rewrite Nat.add_0_r.
Qed.

Lemma accepted_submission_counted_witness :
  let m := ballot "id-d" "d" "2024-03-05T14:05:00.000Z" "otimo" in
  let w' := (submit_evaluation late_morning (JObj m) three_evaluations).2 in
  ∃ s s',
    (get_statistics (λ _, None) late_morning three_evaluations).1
    = Response 200 (Statistics s)
    ∧ (get_statistics (λ _, None) late_morning w').1 = Response 200 (Statistics s')
    ∧ totalAvaliacoes s' = S (totalAvaliacoes s)
    ∧ distribuicao s' !! "otimo" = Some (S (default 0%nat (distribuicao s !! "otimo")))
    ∧ (∀ v, v ≠ "otimo" → distribuicao s' !! v = distribuicao s !! v).
Proof.
  intros m w'.
  apply (accepted_submission_counted (λ _, None) late_morning late_morning m
           three_evaluations w'
           (submit_evaluation late_morning (JObj m) three_evaluations).1
           (JStr "otimo") "otimo").
  - apply surjective_pairing.
  - by vm_compute.
  - reflexivity.
  - reflexivity.
  - reflexivity.
Defined.

(** X23.  The list and the statistics agree: on a store the service has
    reached, with a usable database, the [total] of the list operation is
    the [totalAvaliacoes] of the statistics, the number of stored rows. *)
Theorem list_total_is_statistics_total (sqlite_date : string → option string)
    (e e' : env) (w : world) :
  reachable w → database_ok e = true → database_ok e' = true →
  ∃ evs s,
    (get_evaluations e w).1 = Response 200 (Evaluations evs (length evs))
    ∧ (get_statistics sqlite_date e' w).1 = Response 200 (Statistics s)
    ∧ length evs = totalAvaliacoes s
    ∧ totalAvaliacoes s = length (avaliacoes (db w)).
Proof.
  intros Hw Hok Hok'. destruct (reachable_invariant w Hw) as [Hload _].
  destruct (get_evaluations_ok e w Hok Hload) as (evs & -> & Hrows).
  rewrite (get_statistics_eq _ _ _ Hok'). eexists _, _. split; [done |].
  split; [done |]. cbn [totalAvaliacoes]. split; [|done].
  rewrite <- (Forall2_length _ _ _ Hrows). unfold select_avaliacoes_desc.
  by rewrite merge_sort_Permutation.
Qed.

Lemma list_total_is_statistics_total_witness :
  ∃ evs s,
    (get_evaluations late_morning three_evaluations).1
    = Response 200 (Evaluations evs (length evs))
    ∧ (get_statistics (λ _, None) late_morning three_evaluations).1
      = Response 200 (Statistics s)
    ∧ length evs = totalAvaliacoes s
    ∧ totalAvaliacoes s = length (avaliacoes (db three_evaluations)).
Proof.
  apply list_total_is_statistics_total.
  - apply three_evaluations_reachable.
  - reflexivity.
  - reflexivity.
Defined.
